(** * Batch sentiment jobs: the job lifecycle of backend/app/routers/sentiment.py

    A shallow embedding of the asynchronous batch-classification path of the
    service: the [background_tasks] table of db/models.py, the classifier
    wrapper [predict_sentiment], the background executor
    [process_batch_sentiment], the submission handler
    [analyze_sentiment_batch] and the polling handler [get_task_status].

    Python code that reads and writes the module global [model] and the
    database session is written in a state-and-exception monad over a
    [World]; an exception never undoes the state changes made before it. *)

From Stdlib Require Import List String Ascii ZArith Bool Lia.
From Stdlib Require Import Floats.PrimFloat.
From Stdlib Require Import DecimalString.
Import ListNotations.
Local Open Scope string_scope.
Local Open Scope list_scope.

Set Warnings "-register-all,-inexact-float".


(** ** Exceptions and completions *)

(** The exceptions the handlers can see: FastAPI's [HTTPException], and any
    other [Exception] (class name and message), which is what the storage
    layer, the model loader and the classifier raise. *)
Inductive exn : Type :=
| HTTPException (status_code : Z) (detail : string)
| Exception (class : string) (msg : string).

(** [str(e)]: the message of an ordinary exception; Starlette prints an
    [HTTPException] as "<status_code>: <detail>". *)
Definition str (e : exn) : string :=
  match e with
  | Exception _ msg => msg
  | HTTPException code detail =>
      (NilZero.string_of_int (Z.to_int code) ++ ": " ++ detail)%string
  end.

(** How a call ends: it returns a value or raises. *)
Inductive completion (A : Type) : Type :=
| Return (a : A)
| Raise (e : exn).
Arguments Return {A} a.
Arguments Raise {A} e.

(** ** JSON documents

    The values handed to [json.dumps]: Python lists, dicts (insertion
    ordered), strings and floats.  The [result] column holds the JSON text of
    such a value; the embedding keeps the document that text denotes, so
    [json.dumps] stores the document and [json.loads] gives it back. *)
Inductive json : Type :=
| JStr (s : string)
| JNum (x : float)
| JList (items : list json)
| JDict (fields : list (string * json)).

(** ** db/models.py: the [background_tasks] table

    [status] is the string column of the source ("pending", "completed",
    "failed"); [result] and [error_message] are nullable.  The surrogate key
    [id] and the wall-clock columns [created_at] and [updated_at] are read by
    none of the operations below and are left out. *)
Record DBBackgroundTask : Type := {
  task_id : string;
  user_id : Z;
  task_type : string;
  status : string;
  result : option json;
  error_message : option string
}.

(** ** The classifier

    A scikit-learn pipeline as the handlers use it: [predict] and
    [predict_proba] over a list of texts, each returning one entry per text
    or raising. *)
Record Model : Type := {
  predict : list string -> completion (list Z);
  predict_proba : list string -> completion (list (list float))
}.

(** The pipeline [load_model] builds when no pickled model exists: it was
    never fitted, so both methods raise. *)
Definition unfitted_pipeline : Model := {|
  predict := fun _ => Raise (Exception "NotFittedError" "The TF-IDF vectorizer is not fitted");
  predict_proba := fun _ => Raise (Exception "NotFittedError" "The TF-IDF vectorizer is not fitted")
|}.

(** ** The world the handlers run in

    - [model]: the module global of sentiment.py;
    - [model_file]: what lies at [MODEL_PATH]: nothing, or what
      [joblib.load] does with it;
    - [background_tasks]: the rows of the table, in insertion order;
    - [faults]: what the storage layer does on its next round trips, one
      entry per query or commit: [None] lets it through, [Some msg] makes it
      raise; an exhausted list means no more failures;
    - [scheduled]: the calls registered with FastAPI's [BackgroundTasks] and
      not yet run, oldest first. *)
Record World : Type := {
  model : option Model;
  model_file : option (completion Model);
  background_tasks : list DBBackgroundTask;
  faults : list (option string);
  scheduled : list (list string * string)
}.

Definition set_model (m : option Model) (w : World) : World :=
  {| model := m; model_file := model_file w;
     background_tasks := background_tasks w; faults := faults w;
     scheduled := scheduled w |}.

Definition set_background_tasks (rows : list DBBackgroundTask) (w : World) : World :=
  {| model := model w; model_file := model_file w;
     background_tasks := rows; faults := faults w;
     scheduled := scheduled w |}.

Definition set_faults (fs : list (option string)) (w : World) : World :=
  {| model := model w; model_file := model_file w;
     background_tasks := background_tasks w; faults := fs;
     scheduled := scheduled w |}.

Definition set_scheduled (q : list (list string * string)) (w : World) : World :=
  {| model := model w; model_file := model_file w;
     background_tasks := background_tasks w; faults := faults w;
     scheduled := q |}.

(** ** The monad *)

Definition M (A : Type) : Type := World -> completion A * World.

Definition ret {A} (a : A) : M A := fun w => (Return a, w).

Definition raise {A} (e : exn) : M A := fun w => (Raise e, w).

Definition bind {A B} (c : M A) (k : A -> M B) : M B :=
  fun w =>
    match c w with
    | (Return a, w') => k a w'
    | (Raise e, w') => (Raise e, w')
    end.

(** [try: c  except ... as e: h e] *)
Definition try_except {A} (c : M A) (h : exn -> M A) : M A :=
  fun w =>
    match c w with
    | (Return a, w') => (Return a, w')
    | (Raise e, w') => h e w'
    end.

Definition lift {A} (r : completion A) : M A := fun w => (r, w).

Declare Scope py_scope.
Delimit Scope py_scope with py.
Notation "x <- c ;; k" := (bind c (fun x => k))
  (at level 61, c at next level, right associativity) : py_scope.
Notation "c ;; k" := (bind c (fun _ => k))
  (at level 61, right associativity) : py_scope.
Local Open Scope py_scope.

(** ** Python built-ins used by the handlers *)

(** [xs[0]] *)
Definition index0 {A} (xs : list A) : completion A :=
  match xs with
  | x :: _ => Return x
  | [] => Raise (Exception "IndexError" "list index out of range")
  end.

(** [max(xs)]: the first item, replaced by each later item that compares
    greater; [ValueError] on an empty sequence. *)
Definition py_max (xs : list float) : completion float :=
  match xs with
  | [] => Raise (Exception "ValueError" "max() arg is an empty sequence")
  | x :: rest =>
      Return (fold_left (fun best y => if PrimFloat.ltb best y then y else best) rest x)
  end.

(** [d.get(key, default)] on a dict with integer keys. *)
Fixpoint dict_get (d : list (Z * string)) (key : Z) (default : string) : string :=
  match d with
  | [] => default
  | (k, v) :: rest => if Z.eqb k key then v else dict_get rest key default
  end.

(** ** The storage session *)

(** One round trip to the database: it goes through, or raises as the
    fault schedule says. *)
Definition db_io : M unit :=
  fun w =>
    match faults w with
    | [] => (Return tt, w)
    | None :: fs => (Return tt, set_faults fs w)
    | Some msg :: fs => (Raise (Exception "OperationalError" msg), set_faults fs w)
    end.

(** [db.query(DBBackgroundTask).filter(p).first()] *)
Definition query_first (p : DBBackgroundTask -> bool) : M (option DBBackgroundTask) :=
  db_io ;;
  fun w => (Return (find p (background_tasks w)), w).

(** The row a query returned is a live object: assigning to its attributes
    and committing rewrites that row, the first one the filter selects. *)
Fixpoint update_first (p : DBBackgroundTask -> bool)
    (f : DBBackgroundTask -> DBBackgroundTask)
    (rows : list DBBackgroundTask) : list DBBackgroundTask :=
  match rows with
  | [] => []
  | r :: rest => if p r then f r :: rest else r :: update_first p f rest
  end.

(** [db.commit()] after attribute writes [f] on the object selected by [p];
    a commit that raises is rolled back and leaves the table as it was. *)
Definition commit_update (p : DBBackgroundTask -> bool)
    (f : DBBackgroundTask -> DBBackgroundTask) : M unit :=
  db_io ;;
  fun w => (Return tt, set_background_tasks (update_first p f (background_tasks w)) w).

(** [db.add(row); db.commit()]: [task_id] is declared [unique=True], so a
    row whose [task_id] is already in the table is refused. *)
Definition commit_add (row : DBBackgroundTask) : M unit :=
  db_io ;;
  fun w =>
    if existsb (fun r => String.eqb (task_id r) (task_id row)) (background_tasks w)
    then (Raise (Exception "IntegrityError" "duplicate key value violates unique constraint"), w)
    else (Return tt, set_background_tasks (background_tasks w ++ [row]) w).

(** ** routers/sentiment.py *)

(** [load_model()] *)
Definition load_model : M unit :=
  fun w =>
    match model_file w with
    | Some (Return m) => (Return tt, set_model (Some m) w)
    | Some (Raise e) => (Raise e, w)
    | None => (Return tt, set_model (Some unfitted_pipeline) w)
    end.

(** The global [model] looked up for a method call: calling a method on
    [None] raises. *)
Definition the_model : M Model :=
  fun w =>
    match model w with
    | Some m => (Return m, w)
    | None => (Raise (Exception "AttributeError" "'NoneType' object has no attribute 'predict'"), w)
    end.

Definition sentiment_map : list (Z * string) := [(0%Z, "negative"); (1%Z, "positive")].

(** [predict_sentiment(text)] *)
Definition predict_sentiment (text : string) : M (string * float) :=
  (fun w => match model w with None => load_model w | Some _ => (Return tt, w) end) ;;
  try_except
    (m <- the_model ;;
     predictions <- lift (predict m [text]) ;;
     prediction <- lift (index0 predictions) ;;
     probas <- lift (predict_proba m [text]) ;;
     probabilities <- lift (index0 probas) ;;
     confidence <- lift (py_max probabilities) ;;
     let sentiment := dict_get sentiment_map prediction "neutral" in
     ret (sentiment, confidence))
    (fun _ => ret ("neutral", 0.5%float)).

(** The dict appended to [results] for one text. *)
Definition result_entry (text sentiment : string) (confidence : float) : json :=
  JDict [("text", JStr text); ("sentiment", JStr sentiment); ("confidence", JNum confidence)].

(** The [for text in texts] loop of the executor, [results] being the list
    built so far. *)
Fixpoint classify_all (texts : list string) (results : list json) : M (list json) :=
  match texts with
  | [] => ret results
  | text :: rest =>
      sc <- predict_sentiment text ;;
      classify_all rest (results ++ [result_entry text (fst sc) (snd sc)])
  end.

Definition has_task_id (id : string) (r : DBBackgroundTask) : bool :=
  String.eqb (task_id r) id.

Definition mark_completed (results : list json) (task : DBBackgroundTask) : DBBackgroundTask :=
  {| task_id := task_id task; user_id := user_id task; task_type := task_type task;
     status := "completed"; result := Some (JList results);
     error_message := error_message task |}.

Definition mark_failed (e : exn) (task : DBBackgroundTask) : DBBackgroundTask :=
  {| task_id := task_id task; user_id := user_id task; task_type := task_type task;
     status := "failed"; result := result task;
     error_message := Some (str e) |}.

(** [process_batch_sentiment(texts, task_id, db)] *)
Definition process_batch_sentiment (texts : list string) (id : string) : M unit :=
  try_except
    (results <- classify_all texts [] ;;
     task <- query_first (has_task_id id) ;;
     match task with
     | Some _ => commit_update (has_task_id id) (mark_completed results)
     | None => ret tt
     end)
    (fun e =>
     task <- query_first (has_task_id id) ;;
     match task with
     | Some _ => commit_update (has_task_id id) (mark_failed e)
     | None => ret tt
     end).

(** The body [analyze_sentiment_batch] returns. *)
Record BatchAccepted : Type := {
  accepted_task_id : string;
  accepted_status : string;
  accepted_message : string
}.

(** [background_tasks.add_task(process_batch_sentiment, texts, task_id, db)] *)
Definition add_task (texts : list string) (id : string) : M unit :=
  fun w => (Return tt, set_scheduled (scheduled w ++ [(texts, id)]) w).

(** [analyze_sentiment_batch(request, background_tasks, current_user, db)];
    [uuid4] is the value [uuid.uuid4()] draws for this call. *)
Definition analyze_sentiment_batch (texts : list string) (current_user : Z)
    (uuid4 : string) : M BatchAccepted :=
  let id := uuid4 in
  let db_task := {| task_id := id; user_id := current_user;
                    task_type := "batch_sentiment_analysis"; status := "pending";
                    result := None; error_message := None |} in
  commit_add db_task ;;
  add_task texts id ;;
  ret {| accepted_task_id := id; accepted_status := "pending";
         accepted_message := "Batch sentiment analysis started. Use /sentiment/task/{task_id} to check status." |}.

(** [TaskStatusResponse], without its two timestamps. *)
Record TaskStatusResponse : Type := {
  response_task_id : string;
  response_status : string;
  response_result : option json;
  response_error_message : option string
}.

(** [get_task_status(task_id, current_user, db)] *)
Definition get_task_status (id : string) (current_user : Z) : M TaskStatusResponse :=
  task <- query_first (fun r => String.eqb (task_id r) id && Z.eqb (user_id r) current_user) ;;
  match task with
  | None => raise (HTTPException 404 "Task not found")
  | Some task =>
      let result :=
        match result task with
        | Some document => Some document
        | None => None
        end in
      ret {| response_task_id := task_id task; response_status := status task;
             response_result := result; response_error_message := error_message task |}
  end.

(** ** The server

    What can happen to a running service: a submission, a poll, or the
    oldest scheduled background call being run.  The executor contains no
    [await], so a background call runs from start to end before anything
    else does.  A handler or a background call that raises is answered or
    logged by the framework; the service goes on in the world it left. *)
Inductive event : Type :=
| Submit (texts : list string) (current_user : Z) (uuid4 : string)
| Poll (id : string) (current_user : Z)
| RunBackground.

Definition run_background : M unit :=
  fun w =>
    match scheduled w with
    | [] => (Return tt, w)
    | (texts, id) :: rest => process_batch_sentiment texts id (set_scheduled rest w)
    end.

Definition handle (ev : event) (w : World) : World :=
  match ev with
  | Submit texts current_user uuid4 => snd (analyze_sentiment_batch texts current_user uuid4 w)
  | Poll id current_user => snd (get_task_status id current_user w)
  | RunBackground => snd (run_background w)
  end.

Definition serve (evs : list event) (w : World) : World := fold_left (fun w ev => handle ev w) evs w.

(** The world right after [import sentiment] on a fresh database: line 39
    has run [load_model()] and returned. *)
Definition fresh (file : option (completion Model)) (fs : list (option string)) : World :=
  {| model := None; model_file := file; background_tasks := []; faults := fs; scheduled := [] |}.

Inductive started : World -> Prop :=
| started_intro file fs w : load_model (fresh file fs) = (Return tt, w) -> started w.

Definition reachable (w : World) : Prop :=
  exists w0 evs, started w0 /\ w = serve evs w0.

(** ** Vocabulary of the properties *)

(** The try body of [predict_sentiment] as a function of the loaded model. *)
Definition classify (m : Model) (text : string) : completion (string * float) :=
  match predict m [text] with
  | Raise e => Raise e
  | Return predictions =>
      match index0 predictions with
      | Raise e => Raise e
      | Return prediction =>
          match predict_proba m [text] with
          | Raise e => Raise e
          | Return probas =>
              match index0 probas with
              | Raise e => Raise e
              | Return probabilities =>
                  match py_max probabilities with
                  | Raise e => Raise e
                  | Return confidence =>
                      Return (dict_get sentiment_map prediction "neutral", confidence)
                  end
              end
          end
      end
  end.

Definition default_outcome : string * float := ("neutral", 0.5%float).

(** What one item contributes to the result of a batch. *)
Definition item_outcome (m : Model) (text : string) : string * float :=
  match classify m text with
  | Return o => o
  | Raise _ => default_outcome
  end.

Definition item_entry (m : Model) (text : string) : json :=
  result_entry text (fst (item_outcome m text)) (snd (item_outcome m text)).

(** The row of a job id: the one the executor's query selects. *)
Definition job (id : string) (w : World) : option DBBackgroundTask :=
  find (has_task_id id) (background_tasks w).

Definition job_status (id : string) (w : World) : option string :=
  option_map status (job id w).

(** A well-formed job record: pending with neither result nor error,
    completed with a result and no error, or failed with an error and no
    result. *)
Definition well_formed (r : DBBackgroundTask) : Prop :=
  (status r = "pending" /\ result r = None /\ error_message r = None) \/
  (status r = "completed" /\ result r <> None /\ error_message r = None) \/
  (status r = "failed" /\ result r = None /\ error_message r <> None).

(** A fresh job row, as [analyze_sentiment_batch] writes it. *)
Definition pending_row (id : string) (user : Z) : DBBackgroundTask :=
  {| task_id := id; user_id := user; task_type := "batch_sentiment_analysis";
     status := "pending"; result := None; error_message := None |}.

(** The rewrites the executor commits. *)
Inductive executor_write (m : Model) (texts : list string)
  : (DBBackgroundTask -> DBBackgroundTask) -> Prop :=
| write_completed : executor_write m texts (mark_completed (map (item_entry m) texts))
| write_failed e : executor_write m texts (mark_failed e).

(** What an event does to the table and to the scheduled calls. *)
Inductive event_effect (m : Model) (w w' : World) : Prop :=
| effect_none :
    background_tasks w' = background_tasks w ->
    scheduled w' = scheduled w \/ (exists call, scheduled w = call :: scheduled w') ->
    event_effect m w w'
| effect_submit texts user uuid :
    job uuid w = None ->
    background_tasks w' = background_tasks w ++ [pending_row uuid user] ->
    scheduled w' = scheduled w ++ [(texts, uuid)] ->
    event_effect m w w'
| effect_execute texts id f :
    scheduled w = (texts, id) :: scheduled w' ->
    job id w <> None ->
    executor_write m texts f ->
    background_tasks w' = update_first (has_task_id id) f (background_tasks w) ->
    event_effect m w w'.

(** No row with this id belongs to the caller: the id is unknown, or its
    rows are all owned by someone else. *)
Definition not_visible (id : string) (user : Z) (w : World) : Prop :=
  forall r, In r (background_tasks w) -> task_id r = id -> user_id r <> user.

(** Executors dispatched one after another for the same job id, each with
    its batch. *)
Definition dispatch_all (id : string) (batches : list (list string)) (w : World) : World :=
  fold_left (fun w texts => snd (process_batch_sentiment texts id w)) batches w.

(** The invariant of the running service: the model is loaded, every row
    is well formed, and every scheduled call is for a job of its own that is
    still pending. *)
Record invariant (w : World) : Prop := {
  inv_model : model w <> None;
  inv_rows : forall r, In r (background_tasks w) -> well_formed r;
  inv_nodup : NoDup (map snd (scheduled w));
  inv_queue : forall texts id, In (texts, id) (scheduled w) ->
                exists r, job id w = Some r /\ status r = "pending"
}.

(** ** Example worlds *)

(** A classifier that knows a few texts: it raises on "boom" and answers
    label 2 for anything it does not know. *)
Definition table_model : Model := {|
  predict := fun texts =>
    match texts with
    | [text] =>
        if String.eqb text "great!" then Return [1%Z]
        else if String.eqb text "awful." then Return [0%Z]
        else if String.eqb text "boom" then Raise (Exception "ValueError" "bad input")
        else Return [2%Z]
    | _ => Return []
    end;
  predict_proba := fun texts =>
    match texts with
    | [text] =>
        if String.eqb text "great!" then Return [[0.25%float; 0.75%float]]
        else if String.eqb text "awful." then Return [[0.875%float; 0.125%float]]
        else Return [[0.375%float; 0.625%float]]
    | _ => Return []
    end
|}.

Definition w_empty : World :=
  {| model := Some table_model; model_file := Some (Return table_model);
     background_tasks := []; faults := []; scheduled := [] |}.

Definition row_J (st : string) (res : option json) (err : option string) : DBBackgroundTask :=
  {| task_id := "J"; user_id := 1; task_type := "batch_sentiment_analysis";
     status := st; result := res; error_message := err |}.

Definition w_with (rows : list DBBackgroundTask) (fs : list (option string)) : World :=
  {| model := Some table_model; model_file := Some (Return table_model);
     background_tasks := rows; faults := fs; scheduled := [] |}.

(** Job "J" of user 1, just submitted. *)
Definition w_pending : World := w_with [row_J "pending" None None] [].

(** Job "J" of user 1, failed earlier. *)
Definition w_failed : World := w_with [row_J "failed" None (Some "connection lost")] [].

(** ** main.py: the Celery task *)

(** [analyze_text_task(text)] *)
Definition analyze_text_task (text : string) : M json :=
  sc <- predict_sentiment text ;;
  ret (JDict [("text", JStr text); ("sentiment", JStr (fst sc)); ("confidence", JNum (snd sc))]).

(** ** routers/health.py *)

(** [d[key] = value] on a dict with string values: an existing key keeps
    its place, a new key goes last. *)
Fixpoint dict_set (d : list (string * string)) (key value : string) : list (string * string) :=
  match d with
  | [] => [(key, value)]
  | (k, v) :: rest =>
      if String.eqb k key then (k, value) :: rest else (k, v) :: dict_set rest key value
  end.

(** [d[key]], as a caller of the endpoint reads the answer. *)
Fixpoint dict_lookup (d : list (string * string)) (key : string) : option string :=
  match d with
  | [] => None
  | (k, v) :: rest => if String.eqb k key then Some v else dict_lookup rest key
  end.

(** [health_check(db)]; [redis_ping] is what [redis.from_url(...)] followed
    by [r.ping()] does: it goes through or raises.  [db.execute] is one
    round trip of the session. *)
Definition health_check (redis_ping : completion unit) : M (list (string * string)) :=
  let health_status :=
    [("status", "healthy"); ("api", "ok"); ("database", "ok"); ("redis", "ok")] in
  health_status <-
    try_except
      (db_io ;; ret health_status)
      (fun e =>
         let health_status := dict_set health_status "database" ("error: " ++ str e)%string in
         ret (dict_set health_status "status" "unhealthy")) ;;
  health_status <-
    try_except
      (lift redis_ping ;; ret health_status)
      (fun e =>
         let health_status := dict_set health_status "redis" ("error: " ++ str e)%string in
         ret (dict_set health_status "status" "unhealthy")) ;;
  ret health_status.

(** ** db/models.py: the other two tables

    As for [background_tasks], the surrogate key [id] and the wall-clock
    columns are left out: the handlers below neither set nor test them. *)
Module DBSentimentRequest.
Record row : Type := {
  user_id : Z;
  text : string;
  sentiment : string;
  confidence : float;
  processing_time : float
}.
End DBSentimentRequest.

Module User.
Record row : Type := {
  email : string;
  username : string;
  hashed_password : string;
  is_active : bool;
  is_superuser : bool
}.
End User.

(** ** The whole service: the world of the job path, and the two tables
    of the synchronous and the account paths. *)
Record Service : Type := {
  world : World;
  users : list User.row;
  sentiment_requests : list DBSentimentRequest.row
}.

Definition set_world (w : World) (s : Service) : Service :=
  {| world := w; users := users s; sentiment_requests := sentiment_requests s |}.

Definition set_users (us : list User.row) (s : Service) : Service :=
  {| world := world s; users := us; sentiment_requests := sentiment_requests s |}.

Definition set_sentiment_requests (rs : list DBSentimentRequest.row) (s : Service) : Service :=
  {| world := world s; users := users s; sentiment_requests := rs |}.

Definition S (A : Type) : Type := Service -> completion A * Service.

Definition sret {A} (a : A) : S A := fun s => (Return a, s).

Definition sraise {A} (e : exn) : S A := fun s => (Raise e, s).

Definition sbind {A B} (c : S A) (k : A -> S B) : S B :=
  fun s =>
    match c s with
    | (Return a, s') => k a s'
    | (Raise e, s') => (Raise e, s')
    end.

(** A computation of the job path run inside the service. *)
Definition in_world {A} (c : M A) : S A :=
  fun s => let (r, w') := c (world s) in (r, set_world w' s).

Declare Scope svc_scope.
Delimit Scope svc_scope with svc.
Notation "x <- c ;; k" := (sbind c (fun x => k))
  (at level 61, c at next level, right associativity) : svc_scope.
Notation "c ;; k" := (sbind c (fun _ => k))
  (at level 61, right associativity) : svc_scope.

(** ** routers/sentiment.py: the synchronous endpoint *)

Record SentimentResponse : Type := {
  sync_text : string;
  sync_sentiment : string;
  sync_confidence : float;
  sync_processing_time : float
}.

(** [db.add(db_request); db.commit()]: the table has no constraint to
    violate. *)
Definition commit_add_request (r : DBSentimentRequest.row) : S unit :=
  (in_world db_io ;;
   fun s => (Return tt, set_sentiment_requests (sentiment_requests s ++ [r]) s))%svc.

(** [analyze_sentiment(request, current_user, db)]; [start_time] and
    [end_time] are what the two calls of [time.time()] return. *)
Definition analyze_sentiment (text : string) (current_user : Z)
    (start_time end_time : float) : S SentimentResponse :=
  (sc <- in_world (predict_sentiment text) ;;
   let sentiment := fst sc in
   let confidence := snd sc in
   let processing_time := PrimFloat.sub end_time start_time in
   let db_request :=
     {| DBSentimentRequest.user_id := current_user;
        DBSentimentRequest.text := text;
        DBSentimentRequest.sentiment := sentiment;
        DBSentimentRequest.confidence := confidence;
        DBSentimentRequest.processing_time := processing_time |} in
   commit_add_request db_request ;;
   sret {| sync_text := text; sync_sentiment := sentiment;
           sync_confidence := confidence;
           sync_processing_time := processing_time |})%svc.

(** ** routers/auth.py *)

(** core/security.py is not part of the sources at hand: its three
    functions are taken as given. *)
Record Security : Type := {
  get_password_hash : string -> string;
  verify_password : string -> string -> bool;
  create_access_token : list (string * string) -> string
}.

Record Token : Type := {
  access_token : string;
  token_type : string
}.

(** [db.query(User).filter(p).first()] *)
Definition query_first_user (p : User.row -> bool) : S (option User.row) :=
  (in_world db_io ;;
   fun s => (Return (find p (users s)), s))%svc.

(** [db.add(db_user); db.commit()]: [email] and [username] are both
    declared [unique=True]. *)
Definition commit_add_user (u : User.row) : S unit :=
  (in_world db_io ;;
   fun s =>
     if existsb (fun r => String.eqb (User.email r) (User.email u)
                          || String.eqb (User.username r) (User.username u)) (users s)
     then (Raise (Exception "IntegrityError" "duplicate key value violates unique constraint"), s)
     else (Return tt, set_users (users s ++ [u]) s))%svc.

(** [register(user_data, db)]; the row is returned as stored, the answer's
    [id] and timestamps being the database's. *)
Definition register (sec : Security) (username email password : string) : S User.row :=
  (existing <- query_first_user
                 (fun r => String.eqb (User.username r) username
                           || String.eqb (User.email r) email) ;;
   match existing with
   | Some _ => sraise (HTTPException 400 "Username or email already registered")
   | None =>
       let hashed_password := get_password_hash sec password in
       let db_user := {| User.email := email; User.username := username;
                         User.hashed_password := hashed_password;
                         User.is_active := true; User.is_superuser := false |} in
       commit_add_user db_user ;;
       in_world db_io ;;
       sret db_user
   end)%svc.

(** [login(form_data, db)] *)
Definition login (sec : Security) (username password : string) : S Token :=
  (user <- query_first_user (fun r => String.eqb (User.username r) username) ;;
   match user with
   | None => sraise (HTTPException 401 "Incorrect username or password")
   | Some user =>
       if negb (verify_password sec password (User.hashed_password user))
       then sraise (HTTPException 401 "Incorrect username or password")
       else
         let access_token := create_access_token sec [("sub", User.username user)] in
         sret {| access_token := access_token; token_type := "bearer" |}
   end)%svc.

(** ** Vocabulary of the further properties *)

Definition is_label (s : string) : Prop :=
  s = "negative" \/ s = "positive" \/ s = "neutral".

(** An entry of a batch result, as a poller finds it. *)
Definition is_result_entry (j : json) : Prop :=
  exists text sentiment confidence,
    j = result_entry text sentiment confidence /\ is_label sentiment.

(** No two accounts share a user name or an e-mail address. *)
Definition accounts_distinct (us : list User.row) : Prop :=
  NoDup (map User.username us) /\ NoDup (map User.email us).

(** An account service registering one user after another. *)
Fixpoint register_all (sec : Security) (requests : list (string * string * string))
    (s : Service) : Service :=
  match requests with
  | [] => s
  | (username, email, password) :: rest =>
      register_all sec rest (snd (register sec username email password s))
  end.

(** ** Further example worlds *)

(** A stand-in for core/security.py, to run the account handlers on. *)
Definition example_security : Security := {|
  get_password_hash := fun password => ("hashed:" ++ password)%string;
  verify_password := fun password hashed => String.eqb hashed ("hashed:" ++ password)%string;
  create_access_token := fun data =>
    match dict_lookup data "sub" with
    | Some name => ("token:" ++ name)%string
    | None => "token:"
    end
|}.

Definition s_empty : Service :=
  {| world := w_empty; users := []; sentiment_requests := [] |}.

(** The service at import with no model file, and with a model file that
    does not load. *)
Definition w_no_file : World :=
  {| model := None; model_file := None; background_tasks := [row_J "pending" None None];
     faults := []; scheduled := [] |}.

Definition w_bad_file : World :=
  {| model := None; model_file := Some (Raise (Exception "UnpicklingError" "invalid load key"));
     background_tasks := [row_J "pending" None None]; faults := []; scheduled := [] |}.

(** ** Proof automation *)

Ltac unfold_m :=
  unfold process_batch_sentiment, analyze_sentiment_batch, get_task_status,
    query_first, commit_update, commit_add, add_task, db_io, the_model,
    try_except, bind, ret, raise, lift in *.

(** ** Runs of the examples *)

Example str_http : str (HTTPException 404 "Task not found") = "404: Task not found".
Proof. reflexivity. Qed.

Example predict_great : fst (predict_sentiment "great!" w_empty) = Return ("positive", 0.75%float).
Proof. reflexivity. Qed.

Example predict_boom : fst (predict_sentiment "boom" w_empty) = Return ("neutral", 0.5%float).
Proof. reflexivity. Qed.

Example predict_unknown : fst (predict_sentiment "meh" w_empty) = Return ("neutral", 0.625%float).
Proof. reflexivity. Qed.

Example submit_run_poll :
  fst (get_task_status "J" 1
         (serve [Submit ["great!"; "awful."] 1 "J"; RunBackground] w_empty))
  = Return {| response_task_id := "J"; response_status := "completed";
              response_result := Some (JList [result_entry "great!" "positive" 0.75%float;
                                              result_entry "awful." "negative" 0.875%float]);
              response_error_message := None |}.
Proof. reflexivity. Qed.

Example poll_other_user :
  fst (get_task_status "J" 2
         (serve [Submit ["great!"; "awful."] 1 "J"; RunBackground] w_empty))
  = Raise (HTTPException 404 "Task not found").
Proof. reflexivity. Qed.

(** ** The classifier wrapper *)

(** Once the model is loaded, [predict_sentiment] returns the item's
    outcome and leaves the world alone. *)
Lemma predict_sentiment_loaded m text w :
  model w = Some m ->
  predict_sentiment text w = (Return (item_outcome m text), w).
Proof.
  intros Hm. unfold predict_sentiment, item_outcome, classify, default_outcome.
  unfold_m. rewrite Hm. cbv beta iota. rewrite Hm.
  destruct (predict m [text]) as [predictions|e]; [|reflexivity].
  destruct (index0 predictions) as [prediction|e]; [|reflexivity].
  destruct (predict_proba m [text]) as [probas|e]; [|reflexivity].
  destruct (index0 probas) as [probabilities|e]; [|reflexivity].
  destruct (py_max probabilities) as [confidence|e]; reflexivity.
Qed.

Lemma classify_all_loaded m texts : forall results w,
  model w = Some m ->
  classify_all texts results w = (Return (results ++ map (item_entry m) texts), w).
Proof.
  induction texts as [|text rest IH]; intros results w Hm; simpl.
  - unfold ret. now rewrite app_nil_r.
  - unfold bind. rewrite (predict_sentiment_loaded m text w Hm).
    rewrite (IH _ w Hm). unfold item_entry. now rewrite <- app_assoc.
Qed.

(** ** Rewriting one row *)

Lemma find_update_first p f rows :
  (forall r, p (f r) = p r) ->
  find p (update_first p f rows) = option_map f (find p rows).
Proof.
  intros Hp. induction rows as [|r rest IH]; simpl; [reflexivity|].
  destruct (p r) eqn:E; simpl.
  - now rewrite Hp, E.
  - now rewrite E.
Qed.

Lemma find_update_first_other p q f rows :
  (forall r, q (f r) = q r) ->
  (forall r, p r = true -> q r = false) ->
  find q (update_first p f rows) = find q rows.
Proof.
  intros Hq Hpq. induction rows as [|r rest IH]; simpl; [reflexivity|].
  destruct (p r) eqn:E; simpl.
  - rewrite Hq, (Hpq r E). reflexivity.
  - destruct (q r); [reflexivity|apply IH].
Qed.

Lemma existsb_false_find {A} (p : A -> bool) (l : list A) :
  existsb p l = false -> find p l = None.
Proof.
  induction l as [|x l IH]; simpl; [reflexivity|].
  destruct (p x); simpl; [discriminate|exact IH].
Qed.

Lemma find_app_cases {A} (p : A -> bool) (l l' : list A) :
  find p (l ++ l') = match find p l with Some x => Some x | None => find p l' end.
Proof.
  induction l as [|x l IH]; simpl; [reflexivity|]. destruct (p x); [reflexivity|exact IH].
Qed.

Lemma update_first_app_none p f rows rows' :
  find p rows = None ->
  update_first p f (rows ++ rows') = rows ++ update_first p f rows'.
Proof.
  induction rows as [|r rest IH]; simpl; [reflexivity|].
  destruct (p r); [discriminate|]. intros H. now rewrite IH.
Qed.

Lemma find_none_weaken {A} (p q : A -> bool) (l : list A) :
  (forall x, q x = true -> p x = true) -> find p l = None -> find q l = None.
Proof.
  intros Hqp. induction l as [|x l IH]; simpl; [reflexivity|].
  destruct (p x) eqn:Ep; [discriminate|]. intros H.
  destruct (q x) eqn:Eq; [|exact (IH H)].
  rewrite (Hqp x Eq) in Ep. discriminate Ep.
Qed.

Lemma find_none_existsb_false {A} (p : A -> bool) (l : list A) :
  find p l = None -> existsb p l = false.
Proof.
  induction l as [|x l IH]; simpl; [reflexivity|].
  destruct (p x); simpl; [discriminate|exact IH].
Qed.

Lemma in_update_first p f rows r' :
  In r' (update_first p f rows) ->
  In r' rows \/ exists r, find p rows = Some r /\ r' = f r.
Proof.
  induction rows as [|r rest IH]; simpl; [tauto|].
  destruct (p r) eqn:E; simpl.
  - intros [<-|H]; [right; eauto|left; tauto].
  - intros [<-|H]; [left; tauto|].
    destruct (IH H) as [H1|H1]; [left; tauto|right; exact H1].
Qed.

Lemma has_task_id_other id id' r :
  id <> id' -> has_task_id id r = true -> has_task_id id' r = false.
Proof.
  unfold has_task_id. intros Hne H. apply String.eqb_eq in H.
  apply String.eqb_neq. congruence.
Qed.

(** ** The executor *)

(** With a storage layer that does not fail, the executor returns, and it
    rewrites the job's row exactly when the row exists. *)
Lemma executor_reliable m texts id w :
  model w = Some m -> faults w = [] ->
  process_batch_sentiment texts id w =
    (Return tt,
     match job id w with
     | Some _ =>
         set_background_tasks
           (update_first (has_task_id id) (mark_completed (map (item_entry m) texts))
              (background_tasks w)) w
     | None => w
     end).
Proof.
  intros Hm Hf. unfold_m. rewrite (classify_all_loaded m texts [] w Hm).
  rewrite Hf. unfold job. simpl.
  destruct (find (has_task_id id) (background_tasks w)); [rewrite Hf|]; reflexivity.
Qed.

(** Whatever the storage layer does, one run of the executor leaves the
    table alone or rewrites the job's row once: to completed with the batch
    outcomes, or to failed with the message of the exception. *)
Lemma executor_effect m texts id w :
  model w = Some m ->
  let w' := snd (process_batch_sentiment texts id w) in
  model w' = Some m /\ model_file w' = model_file w /\ scheduled w' = scheduled w /\
  (background_tasks w' = background_tasks w \/
   (job id w <> None /\
    background_tasks w' =
      update_first (has_task_id id) (mark_completed (map (item_entry m) texts))
        (background_tasks w)) \/
   (job id w <> None /\ exists msg,
    In (Some msg) (faults w) /\
    background_tasks w' =
      update_first (has_task_id id) (mark_failed (Exception "OperationalError" msg))
        (background_tasks w))).
Proof.
  intros Hm. unfold_m. rewrite (classify_all_loaded m texts [] w Hm). unfold job.
  destruct (faults w) as [|[msg1|] fs1] eqn:F1; simpl;
    repeat (rewrite ?F1; simpl;
      match goal with
      | |- context [find (has_task_id id) (background_tasks w)] =>
          destruct (find (has_task_id id) (background_tasks w)) eqn:?; simpl
      | |- context [match ?fs with [] => _ | _ => _ end] =>
          is_var fs; destruct fs as [|[?|] ?]; simpl
      end);
    rewrite ?F1; simpl; repeat split; auto;
    try (right; left; split; [congruence|reflexivity]);
    try (right; right; split; [congruence|eexists; split; [|reflexivity]; simpl; auto]).
Qed.

(** ** What the classifier wrapper and the loop leave alone *)

Lemma predict_sentiment_frame text w :
  let w' := snd (predict_sentiment text w) in
  background_tasks w' = background_tasks w /\ faults w' = faults w /\
  scheduled w' = scheduled w.
Proof.
  unfold predict_sentiment, load_model. unfold_m.
  destruct (model w) as [m|] eqn:Hm; cbv beta iota.
  - rewrite Hm.
    destruct (predict m [text]) as [ps|]; simpl; auto.
    destruct (index0 ps); simpl; auto.
    destruct (predict_proba m [text]) as [qs|]; simpl; auto.
    destruct (index0 qs) as [q|]; simpl; auto.
    destruct (py_max q); simpl; auto.
  - destruct (model_file w) as [[m|e]|]; simpl; auto.
    + destruct (predict m [text]) as [ps|]; simpl; auto.
      destruct (index0 ps); simpl; auto.
      destruct (predict_proba m [text]) as [qs|]; simpl; auto.
      destruct (index0 qs) as [q|]; simpl; auto.
      destruct (py_max q); simpl; auto.
Qed.

Lemma classify_all_frame texts : forall results w,
  let w' := snd (classify_all texts results w) in
  background_tasks w' = background_tasks w /\ faults w' = faults w /\
  scheduled w' = scheduled w.
Proof.
  induction texts as [|text rest IH]; intros results w; simpl; [auto|].
  unfold bind. pose proof (predict_sentiment_frame text w) as Hp.
  destruct (predict_sentiment text w) as [[sc|e] w1]; simpl in *; [|exact Hp].
  specialize (IH (results ++ [result_entry text (fst sc) (snd sc)]) w1).
  simpl in IH. destruct Hp as (H1 & H2 & H3), IH as (I1 & I2 & I3).
  repeat split; congruence.
Qed.

(** A poll reads; it never writes a row or schedules anything. *)
Lemma get_task_status_frame id user w :
  let w' := snd (get_task_status id user w) in
  model w' = model w /\ background_tasks w' = background_tasks w /\
  scheduled w' = scheduled w.
Proof.
  unfold_m. destruct (faults w) as [|[msg|] fs]; simpl; auto;
    destruct (find _ (background_tasks w)); simpl; auto.
Qed.

(** ** The classifier wrapper: defaults (C10) *)

(** C10, counterexample.  A prediction outside the sentiment map does not
    give the default outcome: the label is "neutral" but the confidence is
    the largest probability the classifier reported, here 0.625 and not
    0.5. *)
Lemma predict_sentiment_unmapped_label_keeps_confidence :
  predict table_model ["meh"] = Return [2%Z] /\
  predict_sentiment "meh" w_empty = (Return ("neutral", 0.625%float), w_empty) /\
  ("neutral", 0.625%float) <> default_outcome.
Proof.
  repeat split.
  intros H. apply (f_equal snd) in H. simpl in H.
  assert (E : PrimFloat.eqb 0.625%float 0.5%float = true) by (rewrite H; reflexivity).
  vm_compute in E. discriminate E.
Qed.

(** C10, amended.  With the model loaded, [predict_sentiment] always
    returns and leaves the world as it was; when the classifier (or any step
    of the try body) raises, what it returns is exactly ("neutral", 0.5);
    when nothing raises and the predicted label is neither 0 nor 1, it
    returns the label "neutral" together with the largest reported
    probability. *)
Theorem predict_sentiment_defaults (m : Model) (text : string) (w : World) :
  model w = Some m ->
  (exists o, predict_sentiment text w = (Return o, w)) /\
  (((exists e, predict m [text] = Raise e) \/
    (exists e, predict_proba m [text] = Raise e) \/
    (exists e, classify m text = Raise e)) ->
   predict_sentiment text w = (Return ("neutral", 0.5%float), w)) /\
  (forall prediction ps probabilities qs confidence,
     predict m [text] = Return (prediction :: ps) ->
     predict_proba m [text] = Return (probabilities :: qs) ->
     py_max probabilities = Return confidence ->
     prediction <> 0%Z -> prediction <> 1%Z ->
     predict_sentiment text w = (Return ("neutral", confidence), w)).
Proof.
  intros Hm. rewrite (predict_sentiment_loaded m text w Hm).
  split; [eauto|]. unfold item_outcome, classify. split.
  - intros [[e He]|[[e He]|[e He]]].
    + now rewrite He.
    + rewrite He. destruct (predict m [text]) as [ps|]; [|reflexivity].
      destruct (index0 ps); reflexivity.
    + unfold classify in He. now rewrite He.
  - intros prediction ps probabilities qs confidence H1 H2 H3 N0 N1.
    rewrite H1, H2. simpl. rewrite H3.
    destruct prediction as [|[p|p|]|p]; try reflexivity; congruence.
Qed.

Lemma predict_sentiment_defaults_witness :
  model w_empty = Some table_model /\
  predict_sentiment "boom" w_empty = (Return ("neutral", 0.5%float), w_empty).
Proof.
  split; [reflexivity|].
  apply (predict_sentiment_defaults table_model "boom" w_empty); [reflexivity|].
  left. exists (Exception "ValueError" "bad input"). reflexivity.
Defined.

(** ** The executor on an unknown task id (C9) *)



(** ** Polling a job one may not see (C7) *)

Lemma not_visible_find id user w :
  not_visible id user w ->
  find (fun r => String.eqb (task_id r) id && Z.eqb (user_id r) user) (background_tasks w) = None.
Proof.
  intros H. destruct (find _ (background_tasks w)) as [r|] eqn:E; [|reflexivity].
  apply find_some in E. destruct E as [Hin Hp].
  apply andb_true_iff in Hp. destruct Hp as [H1 H2].
  apply String.eqb_eq in H1. apply Z.eqb_eq in H2.
  exfalso. exact (H r Hin H1 H2).
Qed.

(** C7.  When the job id is unknown or owned by another caller, the poll
    raises HTTP 404 "Task not found" (storage not failing) and changes
    nothing; and whatever the storage layer does, two such polls under the
    same storage behaviour end the same way, so an unknown id and somebody
    else's id cannot be told apart. *)
Theorem status_not_found (id : string) (user : Z) (w : World) :
  not_visible id user w ->
  (faults w = [] ->
   get_task_status id user w = (Raise (HTTPException 404 "Task not found"), w)) /\
  (forall id' user' w',
     not_visible id' user' w' -> faults w' = faults w ->
     fst (get_task_status id' user' w') = fst (get_task_status id user w)).
Proof.
  intros H. split.
  - intros F. unfold_m. rewrite F. simpl. now rewrite (not_visible_find id user w H).
  - intros id' user' w' H' F. unfold_m. rewrite F.
    destruct (faults w) as [|[msg|] fs]; simpl;
      rewrite ?(not_visible_find id user w H), ?(not_visible_find id' user' w' H');
      reflexivity.
Qed.

Lemma status_not_found_witness :
  get_task_status "J" 2 w_pending = (Raise (HTTPException 404 "Task not found"), w_pending) /\
  get_task_status "K" 1 w_pending = (Raise (HTTPException 404 "Task not found"), w_pending).
Proof.
  split.
  - apply (status_not_found "J" 2 w_pending); [|reflexivity].
    intros r [<-|[]] _. simpl. lia.
  - apply (status_not_found "K" 1 w_pending); [|reflexivity].
    intros r [<-|[]] E. simpl in E. discriminate E.
Defined.

(** ** Batches with failing items (C6) *)

(** C6.  Whatever items the classifier fails on, a run of the executor on
    an existing job (storage not failing) returns and leaves the job
    completed: its result lists, in input order, the real outcome of every
    item the classifier handled and the default outcome ("neutral", 0.5) for
    every item it failed on.  And under every storage behaviour, a job that
    is failed after the run and was not before carries the message of a
    storage failure: no failure of the classifier ever fails the job. *)
Theorem batch_survives_item_failures (m : Model) (texts : list string) (id : string)
    (w : World) (t : DBBackgroundTask) :
  model w = Some m -> job id w = Some t ->
  (faults w = [] ->
   fst (process_batch_sentiment texts id w) = Return tt /\
   exists t',
     job id (snd (process_batch_sentiment texts id w)) = Some t' /\
     status t' = "completed" /\
     result t' =
       Some (JList (map (fun text =>
                           match classify m text with
                           | Return (sentiment, confidence) =>
                               result_entry text sentiment confidence
                           | Raise _ => result_entry text "neutral" 0.5%float
                           end) texts))) /\
  (forall t',
     job id (snd (process_batch_sentiment texts id w)) = Some t' ->
     status t' = "failed" ->
     status t = "failed" \/
     exists msg, In (Some msg) (faults w) /\ error_message t' = Some msg).
Proof.
  intros Hm Hj. split.
  - intros F. rewrite (executor_reliable m texts id w Hm F), Hj.
    split; [reflexivity|]. unfold job in *. simpl.
    rewrite find_update_first by reflexivity. rewrite Hj. simpl.
    eexists. split; [reflexivity|]. simpl. split; [reflexivity|].
    do 2 f_equal. apply map_ext. intros text.
    unfold item_entry, item_outcome, default_outcome.
    destruct (classify m text) as [[s c]|e]; reflexivity.
  - intros t' Hj' Hs'.
    destruct (executor_effect m texts id w Hm) as (_ & _ & _ & [E|[[_ E]|[_ (msg & Hin & E)]]]);
      unfold job in *; rewrite E in Hj'.
    + left. congruence.
    + rewrite find_update_first in Hj' by reflexivity. rewrite Hj in Hj'.
      simpl in Hj'. injection Hj' as <-. simpl in Hs'. discriminate Hs'.
    + rewrite find_update_first in Hj' by reflexivity. rewrite Hj in Hj'.
      simpl in Hj'. injection Hj' as <-. right. exists msg. split; [exact Hin|reflexivity].
Qed.

Lemma batch_survives_item_failures_witness :
  exists t',
    job "J" (snd (process_batch_sentiment ["great!"; "boom"; "awful."] "J" w_pending)) = Some t' /\
    status t' = "completed" /\
    result t' = Some (JList [result_entry "great!" "positive" 0.75%float;
                             result_entry "boom" "neutral" 0.5%float;
                             result_entry "awful." "negative" 0.875%float]).
Proof.
  destruct (batch_survives_item_failures table_model ["great!"; "boom"; "awful."] "J"
              w_pending (row_J "pending" None None) eq_refl eq_refl)
    as [H _].
  destruct (H eq_refl) as [_ [t' (H1 & H2 & H4)]].
  exists t'. repeat split; assumption.
Defined.

(** ** Completed jobs (C1) *)

(** C1.  Take a pending job and run the executor on a batch.  Whatever the
    storage layer does, if the job is completed afterwards then its result
    is a list with one entry per input text, the i-th entry carrying the
    i-th text and the outcome of classifying it; and when the storage layer
    does not fail the job is completed afterwards. *)
Theorem completed_result_follows_input (m : Model) (texts : list string) (id : string)
    (w : World) (t : DBBackgroundTask) :
  model w = Some m -> job id w = Some t -> status t = "pending" ->
  (forall t',
     job id (snd (process_batch_sentiment texts id w)) = Some t' ->
     status t' = "completed" ->
     exists outcomes,
       result t' = Some (JList outcomes) /\
       List.length outcomes = List.length texts /\
       forall i text, nth_error texts i = Some text ->
         exists sentiment confidence,
           nth_error outcomes i = Some (result_entry text sentiment confidence) /\
           fst (predict_sentiment text w) = Return (sentiment, confidence)) /\
  (faults w = [] ->
   exists t', job id (snd (process_batch_sentiment texts id w)) = Some t' /\
              status t' = "completed").
Proof.
  intros Hm Hj Hs. split.
  - intros t' Hj' Hs'.
    destruct (executor_effect m texts id w Hm) as (_ & _ & _ & [E|[[_ E]|[_ (msg & _ & E)]]]);
      unfold job in *; rewrite E in Hj'.
    + rewrite Hj in Hj'. congruence.
    + rewrite find_update_first in Hj' by reflexivity. rewrite Hj in Hj'.
      simpl in Hj'. injection Hj' as <-. simpl.
      exists (map (item_entry m) texts). split; [reflexivity|].
      split; [apply List.length_map|].
      intros i text Hi. rewrite (predict_sentiment_loaded m text w Hm). simpl.
      exists (fst (item_outcome m text)), (snd (item_outcome m text)).
      split; [|now destruct (item_outcome m text)].
      rewrite nth_error_map, Hi. reflexivity.
    + rewrite find_update_first in Hj' by reflexivity. rewrite Hj in Hj'.
      simpl in Hj'. injection Hj' as <-. simpl in Hs'. discriminate Hs'.
  - intros F. rewrite (executor_reliable m texts id w Hm F), Hj.
    unfold job in *. simpl. rewrite find_update_first by reflexivity.
    rewrite Hj. simpl. eexists. split; reflexivity.
Qed.

Lemma completed_result_follows_input_witness :
  exists t',
    job "J" (snd (process_batch_sentiment ["great!"; "awful."] "J" w_pending)) = Some t' /\
    status t' = "completed".
Proof.
  apply (completed_result_follows_input table_model ["great!"; "awful."] "J" w_pending
           (row_J "pending" None None)); reflexivity.
Defined.

(** From submission to poll: a batch submitted under a fresh task id to a
    service with nothing else scheduled, then executed, is reported
    completed to its owner, with the entries of its texts in order. *)
Lemma submitted_batch_is_reported (m : Model) (texts : list string) (user : Z)
    (uuid4 : string) (w : World) :
  model w = Some m -> faults w = [] -> scheduled w = [] -> job uuid4 w = None ->
  fst (get_task_status uuid4 user (serve [Submit texts user uuid4; RunBackground] w)) =
    Return {| response_task_id := uuid4; response_status := "completed";
              response_result := Some (JList (map (item_entry m) texts));
              response_error_message := None |}.
Proof.
  intros Hm F Q Hj. unfold job in Hj. simpl.
  assert (Hid : has_task_id uuid4 (pending_row uuid4 user) = true)
    by (unfold has_task_id; simpl; apply String.eqb_refl).
  assert (E : analyze_sentiment_batch texts user uuid4 w =
              (Return {| accepted_task_id := uuid4; accepted_status := "pending";
                         accepted_message := "Batch sentiment analysis started. Use /sentiment/task/{task_id} to check status." |},
               set_scheduled (scheduled w ++ [(texts, uuid4)])
                 (set_background_tasks (background_tasks w ++ [pending_row uuid4 user]) w))).
  { unfold_m. rewrite F. simpl.
    change (fun r : DBBackgroundTask => String.eqb (task_id r) uuid4) with (has_task_id uuid4).
    rewrite (find_none_existsb_false _ _ Hj). reflexivity. }
  rewrite E. simpl. unfold run_background. simpl. rewrite Q. simpl.
  rewrite executor_reliable with (m := m) by (simpl; assumption).
  unfold job. simpl. rewrite find_app_cases, Hj. simpl. rewrite Hid.
  unfold get_task_status, query_first, db_io, bind, ret, raise. simpl. rewrite F.
  rewrite (update_first_app_none _ _ _ _ Hj). simpl. rewrite Hid.
  rewrite find_app_cases.
  rewrite (find_none_weaken (has_task_id uuid4)) by
    (try exact Hj; intros r Hr; apply andb_true_iff in Hr; exact (proj1 Hr)).
  simpl. rewrite String.eqb_refl, Z.eqb_refl. reflexivity.
Qed.

(** ** One event of the service *)

Lemma handle_effect (m : Model) (ev : event) (w : World) :
  model w = Some m ->
  model (handle ev w) = Some m /\ event_effect m w (handle ev w).
Proof.
  intros Hm. destruct ev as [texts user uuid|id user|]; simpl.
  - unfold_m.
    destruct (faults w) as [|[msg|] fs]; simpl;
      try solve [split; [assumption|apply effect_none; simpl; auto]];
      destruct (existsb _ (background_tasks w)) eqn:E; simpl;
      try solve [split; [assumption|apply effect_none; simpl; auto]];
      (split; [assumption|];
       apply (effect_submit m _ _ texts user uuid); simpl;
       [apply (existsb_false_find _ _ E)|reflexivity|reflexivity]).
  - destruct (get_task_status_frame id user w) as (H1 & H2 & H3).
    split; [congruence|]. apply effect_none; auto.
  - unfold run_background. destruct (scheduled w) as [|[texts id] rest] eqn:Q; simpl.
    + split; [assumption|]. apply effect_none; auto.
    + destruct (executor_effect m texts id (set_scheduled rest w) Hm)
        as (H1 & _ & H3 & [E|[[Hj E]|[Hj (msg & _ & E)]]]); simpl in *; (split; [assumption|]).
      * apply effect_none; [assumption|]. right. exists (texts, id). now rewrite H3.
      * apply (effect_execute m _ _ texts id (mark_completed (map (item_entry m) texts)));
          [now rewrite H3|exact Hj|constructor|exact E].
      * apply (effect_execute m _ _ texts id (mark_failed (Exception "OperationalError" msg)));
          [now rewrite H3|exact Hj|constructor|exact E].
Qed.

(** ** The invariant of the running service *)

Lemma well_formed_pending r :
  well_formed r -> status r = "pending" -> result r = None /\ error_message r = None.
Proof.
  intros [(_ & H1 & H2)|[(H & _)|(H & _)]] Hs; [auto| |]; rewrite Hs in H; discriminate H.
Qed.

Lemma executor_write_well_formed m texts f r :
  executor_write m texts f -> well_formed r -> status r = "pending" -> well_formed (f r).
Proof.
  intros Hf Hw Hs. destruct (well_formed_pending r Hw Hs) as [H1 H2].
  destruct Hf; unfold well_formed; simpl.
  - right. left. rewrite H2. repeat split. discriminate.
  - right. right. rewrite H1. repeat split. discriminate.
Qed.

Lemma executor_write_keeps_id m texts f id r :
  executor_write m texts f -> has_task_id id (f r) = has_task_id id r.
Proof. intros []; reflexivity. Qed.

Lemma invariant_started w : started w -> invariant w.
Proof.
  intros [file fs w' H]. unfold load_model, fresh in H. simpl in H.
  destruct file as [[m|e]|]; inversion H; subst; clear H;
    (split; simpl; [discriminate|intros r []|constructor|intros texts id []]).
Qed.

Lemma invariant_handle ev w : invariant w -> invariant (handle ev w).
Proof.
  intros [Hm Hrows Hnd Hq]. destruct (model w) as [m|] eqn:Em; [|congruence].
  destruct (handle_effect m ev w Em) as [Hm' Heff].
  destruct Heff as [Hr Hs|texts user uuid Hj Hr Hs|texts id f Hs Hj Hf Hr].
  - split.
    + congruence.
    + now rewrite Hr.
    + destruct Hs as [Hs|[call Hs]]; [now rewrite Hs|].
      rewrite Hs in Hnd. simpl in Hnd. now inversion Hnd.
    + intros texts id Hin. unfold job. rewrite Hr. apply (Hq texts id).
      destruct Hs as [Hs|[call Hs]]; rewrite Hs in *; simpl; auto.
  - split.
    + congruence.
    + rewrite Hr. intros r Hin. apply in_app_or in Hin.
      destruct Hin as [Hin|[<-|[]]]; [now apply Hrows|]. left. repeat split.
    + rewrite Hs, map_app. simpl.
      assert (Hfresh : ~ In uuid (map snd (scheduled w))).
      { intros Hin. apply in_map_iff in Hin. destruct Hin as [[texts' id'] [E Hin]].
        simpl in E. subst id'. destruct (Hq texts' uuid Hin) as [r [Hr' _]]. congruence. }
      clear - Hnd Hfresh. induction (map snd (scheduled w)) as [|x l IH]; simpl.
      * constructor; [intros []|constructor].
      * inversion Hnd; subst. constructor.
        -- intros Hin. apply in_app_or in Hin. destruct Hin as [Hin|[<-|[]]]; [tauto|].
           apply Hfresh. now left.
        -- apply IH; [assumption|]. intros Hin. apply Hfresh. now right.
    + intros texts' id Hin. rewrite Hs in Hin. apply in_app_or in Hin.
      unfold job in *. rewrite Hr, find_app_cases.
      destruct Hin as [Hin|[E|[]]].
      * destruct (Hq texts' id Hin) as [r [Hr' Hst]]. rewrite Hr'. eauto.
      * injection E as <- <-. rewrite Hj. simpl. unfold has_task_id. simpl.
        rewrite String.eqb_refl. eexists. split; reflexivity.
  - assert (Hhead : exists r0, job id w = Some r0 /\ status r0 = "pending").
    { apply (Hq texts id). rewrite Hs. now left. }
    destruct Hhead as [r0 [Hj0 Hst0]].
    split.
    + congruence.
    + rewrite Hr. intros r Hin. apply in_update_first in Hin.
      destruct Hin as [Hin|[r1 [Hfind ->]]]; [now apply Hrows|].
      unfold job in Hj0. rewrite Hj0 in Hfind. injection Hfind as <-.
      apply (executor_write_well_formed m texts f r0 Hf); [|assumption].
      apply Hrows. apply find_some in Hj0. tauto.
    + rewrite Hs in Hnd. simpl in Hnd. now inversion Hnd.
    + intros texts' id' Hin.
      assert (Hne : id <> id').
      { rewrite Hs in Hnd. simpl in Hnd. inversion Hnd as [|x l Hnotin _]; subst.
        intros ->. apply Hnotin. apply in_map_iff. exists (texts', id'). auto. }
      unfold job. rewrite Hr.
      rewrite find_update_first_other.
      * apply (Hq texts' id'). rewrite Hs. now right.
      * intros r. apply (executor_write_keeps_id m texts f id' r Hf).
      * intros r. apply has_task_id_other. exact Hne.
Qed.

Lemma invariant_serve evs : forall w, invariant w -> invariant (serve evs w).
Proof.
  induction evs as [|ev evs IH]; intros w Hw; simpl; [assumption|].
  apply IH. now apply invariant_handle.
Qed.

Lemma invariant_reachable w : reachable w -> invariant w.
Proof.
  intros (w0 & evs & H0 & ->). apply invariant_serve. now apply invariant_started.
Qed.

(** From import on the model is loaded, so the guard at the head of
    [predict_sentiment] never fires while the service runs. *)
Lemma reachable_model_loaded w : reachable w -> exists m, model w = Some m.
Proof.
  intros Hw. apply invariant_reachable in Hw.
  destruct (model w) as [m|] eqn:E; [now exists m|].
  exfalso. exact (inv_model w Hw E).
Qed.

(** What one event does to one job. *)
Lemma job_step ev w id :
  invariant w ->
  match job id w with
  | Some r =>
      job id (handle ev w) = Some r \/
      (status r = "pending" /\
       exists m texts f, executor_write m texts f /\ job id (handle ev w) = Some (f r))
  | None =>
      job id (handle ev w) = None \/
      exists user, job id (handle ev w) = Some (pending_row id user)
  end.
Proof.
  intros [Hm Hrows Hnd Hq]. destruct (model w) as [m|] eqn:Em; [|congruence].
  destruct (handle_effect m ev w Em) as [_ Heff].
  destruct Heff as [Hr Hs|texts user uuid Hj Hr Hs|texts id0 f Hs Hj Hf Hr];
    unfold job in *; rewrite Hr.
  - destruct (find (has_task_id id) (background_tasks w)); auto.
  - rewrite find_app_cases.
    destruct (find (has_task_id id) (background_tasks w)); [auto|]. simpl.
    unfold has_task_id. simpl. destruct (String.eqb uuid id) eqn:E; [|auto].
    apply String.eqb_eq in E. subst uuid. right. now exists user.
  - destruct (String.eqb id0 id) eqn:E.
    + apply String.eqb_eq in E. subst id0.
      rewrite find_update_first by (intros r; apply (executor_write_keeps_id m texts f id r Hf)).
      destruct (find (has_task_id id) (background_tasks w)) as [r|] eqn:Ej; [|congruence].
      simpl. right. split; [|now exists m, texts, f].
      destruct (Hq texts id) as [r0 [Hj0 Hst0]]; [rewrite Hs; now left|].
      unfold job in Hj0. congruence.
    + apply String.eqb_neq in E.
      rewrite find_update_first_other.
      * destruct (find (has_task_id id) (background_tasks w)); auto.
      * intros r. apply (executor_write_keeps_id m texts f id r Hf).
      * intros r. apply has_task_id_other. exact E.
Qed.

(** ** The job record (C8) *)

(** C8.  In every world the service can reach, every job record is pending,
    completed or failed; its result is populated exactly when it is
    completed and its error exactly when it is failed, so never both; and
    both are absent while it is pending (or processing). *)
Theorem job_record_invariant (w : World) (r : DBBackgroundTask) :
  reachable w -> In r (background_tasks w) ->
  (result r <> None <-> status r = "completed") /\
  (error_message r <> None <-> status r = "failed") /\
  ~ (result r <> None /\ error_message r <> None) /\
  (status r = "pending" \/ status r = "processing" ->
   result r = None /\ error_message r = None).
Proof.
  intros Hw Hin. apply invariant_reachable in Hw.
  destruct (inv_rows w Hw r Hin) as [(Hs & H1 & H2)|[(Hs & H1 & H2)|(Hs & H1 & H2)]];
    rewrite Hs; repeat split; try tauto; try congruence;
    try (intros; discriminate);
    try (intros [E|E]; discriminate E);
    try match goal with H : _ \/ _ |- _ => destruct H as [E|E]; discriminate E end.
Qed.

Lemma job_record_invariant_witness :
  (result (row_J "completed" (Some (JList [result_entry "great!" "positive" 0.75%float])) None)
     <> None <-> "completed" = "completed").
Proof.
  assert (Hreach : reachable (serve [Submit ["great!"] 1 "J"; RunBackground] w_empty)).
  { exists w_empty, [Submit ["great!"] 1 "J"; RunBackground]. split; [|reflexivity].
    apply (started_intro (Some (Return table_model)) [] w_empty). reflexivity. }
  exact (proj1 (job_record_invariant _
           (row_J "completed" (Some (JList [result_entry "great!" "positive" 0.75%float])) None)
           Hreach (or_introl eq_refl))).
Defined.

(** ** Terminal jobs (C2) *)

(** C2, counterexample.  The executor run on a job that has already failed
    signals nothing: it returns normally and rewrites the record, which ends
    up completed with a result, its old error still in place. *)
Lemma executor_rewrites_failed_job :
  job "J" w_failed = Some (row_J "failed" None (Some "connection lost")) /\
  process_batch_sentiment ["great!"] "J" w_failed =
    (Return tt,
     w_with [row_J "completed" (Some (JList [result_entry "great!" "positive" 0.75%float]))
               (Some "connection lost")] []).
Proof. split; reflexivity. Qed.

Lemma terminal_not_pending r :
  status r = "completed" \/ status r = "failed" -> status r <> "pending".
Proof. intros [H|H]; rewrite H; discriminate. Qed.

(** C2, amended.  In the running service terminal states are absorbing:
    once a job is completed or failed, no sequence of submissions, polls and
    background runs changes its record. *)
Theorem terminal_job_is_kept (evs : list event) (w : World) (id : string)
    (r : DBBackgroundTask) :
  reachable w -> job id w = Some r ->
  status r = "completed" \/ status r = "failed" ->
  job id (serve evs w) = Some r.
Proof.
  intros Hw. apply invariant_reachable in Hw. revert w Hw.
  induction evs as [|ev evs IH]; intros w Hw Hj Hs; simpl; [assumption|].
  apply IH; [now apply invariant_handle| |assumption].
  pose proof (job_step ev w id Hw) as Hstep. rewrite Hj in Hstep.
  destruct Hstep as [H|[Hp _]]; [assumption|].
  exfalso. exact (terminal_not_pending r Hs Hp).
Qed.

Lemma terminal_job_is_kept_witness :
  job "J" (serve [RunBackground; Submit ["awful."] 1 "J"; Poll "J" 1; RunBackground]
             (serve [Submit ["great!"] 1 "J"; RunBackground] w_empty))
  = Some (row_J "completed" (Some (JList [result_entry "great!" "positive" 0.75%float])) None).
Proof.
  apply (terminal_job_is_kept
           [RunBackground; Submit ["awful."] 1 "J"; Poll "J" 1; RunBackground]
           (serve [Submit ["great!"] 1 "J"; RunBackground] w_empty) "J").
  - exists w_empty, [Submit ["great!"] 1 "J"; RunBackground]. split; [|reflexivity].
    apply (started_intro (Some (Return table_model)) [] w_empty). reflexivity.
  - reflexivity.
  - left. reflexivity.
Defined.

(** ** Duplicate dispatch (C3) *)

(** C3, counterexample.  Two executors dispatched for the pending job "J":
    the first takes the job from pending straight to completed, the second
    is not turned away, returns normally and rewrites the record; the job is
    never in a processing state. *)
Lemma duplicate_dispatch_both_write :
  job_status "J" w_pending = Some "pending" /\
  fst (process_batch_sentiment ["great!"] "J" w_pending) = Return tt /\
  job "J" (dispatch_all "J" [["great!"]] w_pending) =
    Some (row_J "completed" (Some (JList [result_entry "great!" "positive" 0.75%float])) None) /\
  fst (process_batch_sentiment ["awful."] "J" (dispatch_all "J" [["great!"]] w_pending))
    = Return tt /\
  job "J" (dispatch_all "J" [["great!"]; ["awful."]] w_pending) =
    Some (row_J "completed" (Some (JList [result_entry "awful." "negative" 0.875%float])) None) /\
  job "J" (dispatch_all "J" [["great!"]; ["awful."]] w_pending)
    <> job "J" (dispatch_all "J" [["great!"]] w_pending).
Proof.
  repeat split. intros H. vm_compute in H. discriminate H.
Qed.

Lemma dispatch_all_state m id batches : forall w t,
  model w = Some m -> faults w = [] -> job id w = Some t ->
  let w' := dispatch_all id batches w in
  model w' = Some m /\ faults w' = [] /\
  (job id w' = Some t \/ exists results, job id w' = Some (mark_completed results t)).
Proof.
  induction batches as [|texts rest IH]; intros w t Hm F Hj; unfold dispatch_all; simpl.
  - repeat split; auto.
  - pose proof (executor_reliable m texts id w Hm F) as E. rewrite Hj in E.
    unfold dispatch_all in IH.
    destruct (IH (snd (process_batch_sentiment texts id w))
                (mark_completed (map (item_entry m) texts) t)) as (I1 & I2 & I3).
    + rewrite E. exact Hm.
    + rewrite E. exact F.
    + rewrite E. unfold job in *. simpl. rewrite find_update_first by reflexivity.
      now rewrite Hj.
    + repeat split; auto. right.
      destruct I3 as [I3|[results I3]]; rewrite I3; eexists; reflexivity.
Qed.

(** C3, amended.  The executor has no claiming step: however many
    executors were dispatched before for the same job id, the next one
    (storage not failing) returns normally and leaves the job completed with
    the outcomes of its own batch, the other columns as submitted; so after
    duplicate dispatch the record is the one the last executor wrote, and no
    executor leaves the job in a processing state. *)
Theorem duplicate_dispatch_every_executor_writes (m : Model) (id : string)
    (t : DBBackgroundTask) (earlier : list (list string)) (texts : list string)
    (w : World) :
  model w = Some m -> faults w = [] -> job id w = Some t ->
  fst (process_batch_sentiment texts id (dispatch_all id earlier w)) = Return tt /\
  job id (dispatch_all id (earlier ++ [texts]) w)
    = Some (mark_completed (map (item_entry m) texts) t) /\
  job_status id (dispatch_all id (earlier ++ [texts]) w) = Some "completed".
Proof.
  intros Hm F Hj.
  destruct (dispatch_all_state m id earlier w t Hm F Hj) as (H1 & H2 & H3).
  pose proof (executor_reliable m texts id (dispatch_all id earlier w) H1 H2) as E.
  assert (Hlast : job id (dispatch_all id (earlier ++ [texts]) w)
                  = Some (mark_completed (map (item_entry m) texts) t)).
  { unfold dispatch_all at 1. rewrite fold_left_app. simpl.
    fold (dispatch_all id earlier w). rewrite E.
    destruct H3 as [H3|[results H3]]; rewrite H3; unfold job in *; simpl;
      rewrite find_update_first by reflexivity; rewrite H3; reflexivity. }
  split; [now rewrite E|]. split; [exact Hlast|].
  unfold job_status. now rewrite Hlast.
Qed.

Lemma duplicate_dispatch_every_executor_writes_witness :
  job_status "J" (dispatch_all "J" ([["great!"]; ["great!"]] ++ [["awful."]]) w_pending)
  = Some "completed".
Proof.
  apply (duplicate_dispatch_every_executor_writes table_model "J" (row_J "pending" None None)
           [["great!"]; ["great!"]] ["awful."] w_pending); reflexivity.
Defined.

(** ** The state sequence of a job (C4) *)

(** C4, counterexample.  Job "J" is submitted and its executor runs: the
    run is a single rewrite of the row, and it takes the state from pending
    straight to completed. *)
Lemma pending_job_completes_directly :
  job_status "J" (serve [Submit ["great!"] 1 "J"] w_empty) = Some "pending" /\
  background_tasks (handle RunBackground (serve [Submit ["great!"] 1 "J"] w_empty)) =
    update_first (has_task_id "J")
      (mark_completed [result_entry "great!" "positive" 0.75%float])
      (background_tasks (serve [Submit ["great!"] 1 "J"] w_empty)) /\
  job_status "J" (handle RunBackground (serve [Submit ["great!"] 1 "J"] w_empty))
    = Some "completed".
Proof. repeat split. Qed.

Lemma executor_write_status m texts f r :
  executor_write m texts f -> status (f r) = "completed" \/ status (f r) = "failed".
Proof. intros []; simpl; auto. Qed.

(** C4, amended.  In the running service an event leaves the state of a job
    as it is or takes it from pending straight to completed or to failed; a
    job that appears starts pending; no job is ever processing, and none
    comes back to pending after leaving it. *)
Theorem job_state_steps (w : World) (ev : event) (id s' : string) :
  reachable w -> job_status id (handle ev w) = Some s' ->
  s' <> "processing" /\
  match job_status id w with
  | None => s' = "pending"
  | Some s => s' = s \/ (s = "pending" /\ (s' = "completed" \/ s' = "failed"))
  end.
Proof.
  intros Hw Hs'. apply invariant_reachable in Hw.
  pose proof (invariant_handle ev w Hw) as Hw'.
  unfold job_status in *.
  destruct (job id (handle ev w)) as [r'|] eqn:Hj'; [|discriminate Hs'].
  simpl in Hs'. injection Hs' as <-. split.
  - unfold job in Hj'. apply find_some in Hj'. destruct Hj' as [Hin _].
    destruct (inv_rows _ Hw' r' Hin) as [(E & _)|[(E & _)|(E & _)]];
      rewrite E; discriminate.
  - pose proof (job_step ev w id Hw) as Hstep.
    destruct (job id w) as [r|]; simpl.
    + destruct Hstep as [H|[Hp (m & texts & f & Hf & H)]];
        rewrite H in Hj'; injection Hj' as <-; [now left|right].
      split; [assumption|apply (executor_write_status m texts f r Hf)].
    + destruct Hstep as [H|[user H]]; rewrite H in Hj'; [discriminate Hj'|].
      injection Hj' as <-. reflexivity.
Qed.

Lemma job_state_steps_witness :
  "completed" <> "processing" /\
  ("completed" = "pending" \/
   ("pending" = "pending" /\ ("completed" = "completed" \/ "completed" = "failed"))).
Proof.
  apply (job_state_steps (serve [Submit ["great!"] 1 "J"] w_empty) RunBackground "J" "completed").
  - exists w_empty, [Submit ["great!"] 1 "J"]. split; [|reflexivity].
    apply (started_intro (Some (Return table_model)) [] w_empty). reflexivity.
  - reflexivity.
Defined.

(** ** Empty submissions (C5) *)

(** C5, counterexample.  An empty batch is not rejected: the handler
    returns the pending answer and a row has been written. *)
Lemma empty_batch_is_stored :
  background_tasks w_empty = [] /\
  fst (analyze_sentiment_batch [] 1 "J" w_empty) =
    Return {| accepted_task_id := "J"; accepted_status := "pending";
              accepted_message := "Batch sentiment analysis started. Use /sentiment/task/{task_id} to check status." |} /\
  background_tasks (snd (analyze_sentiment_batch [] 1 "J" w_empty)) = [pending_row "J" 1].
Proof. repeat split. Qed.

(** C5, amended.  An empty batch is accepted like any other (storage not
    failing, fresh task id): the handler writes a pending row, schedules the
    executor on the empty list and answers with the task id and "pending";
    the executor, when it is the next to run, completes the job with an
    empty result. *)
Theorem empty_batch_accepted (m : Model) (user : Z) (uuid4 : string) (w : World) :
  model w = Some m -> faults w = [] -> job uuid4 w = None ->
  (exists answer,
     fst (analyze_sentiment_batch [] user uuid4 w) = Return answer /\
     accepted_task_id answer = uuid4 /\ accepted_status answer = "pending") /\
  background_tasks (snd (analyze_sentiment_batch [] user uuid4 w))
    = background_tasks w ++ [pending_row uuid4 user] /\
  scheduled (snd (analyze_sentiment_batch [] user uuid4 w))
    = scheduled w ++ [([], uuid4)] /\
  (scheduled w = [] ->
   job uuid4 (handle RunBackground (snd (analyze_sentiment_batch [] user uuid4 w)))
     = Some (mark_completed [] (pending_row uuid4 user))).
Proof.
  intros Hm F Hj. unfold job in Hj.
  assert (E : analyze_sentiment_batch [] user uuid4 w =
              (Return {| accepted_task_id := uuid4; accepted_status := "pending";
                         accepted_message := "Batch sentiment analysis started. Use /sentiment/task/{task_id} to check status." |},
               set_scheduled (scheduled w ++ [([], uuid4)])
                 (set_background_tasks (background_tasks w ++ [pending_row uuid4 user]) w))).
  { unfold_m. rewrite F. simpl.
    change (fun r : DBBackgroundTask => String.eqb (task_id r) uuid4) with (has_task_id uuid4).
    rewrite (find_none_existsb_false _ _ Hj). reflexivity. }
  rewrite E. simpl. split; [eexists; repeat split|]. split; [reflexivity|].
  split; [reflexivity|]. intros Q. unfold run_background. simpl. rewrite Q. simpl.
  rewrite executor_reliable with (m := m) by (simpl; assumption).
  unfold job. simpl. rewrite !find_app_cases, Hj. simpl.
  assert (Hid : has_task_id uuid4 (pending_row uuid4 user) = true)
    by (unfold has_task_id; simpl; apply String.eqb_refl).
  rewrite Hid. simpl.
  rewrite find_update_first by reflexivity. rewrite find_app_cases, Hj. simpl.
  rewrite Hid. reflexivity.
Qed.

Lemma empty_batch_accepted_witness :
  job "J" (handle RunBackground (snd (analyze_sentiment_batch [] 1 "J" w_empty)))
  = Some (mark_completed [] (pending_row "J" 1)).
Proof.
  apply (empty_batch_accepted table_model 1 "J" w_empty); reflexivity.
Defined.

(** * Further properties of the code *)

(** ** The classifier wrapper, whatever the state of the model *)

Lemma sentiment_map_label prediction :
  is_label (dict_get sentiment_map prediction "neutral").
Proof.
  unfold is_label.
  destruct prediction as [|[p|p|]|p]; simpl; auto.
Qed.

Lemma item_outcome_label m text : is_label (fst (item_outcome m text)).
Proof.
  unfold item_outcome, classify, default_outcome.
  destruct (predict m [text]) as [ps|]; [|right; right; reflexivity].
  destruct (index0 ps) as [p|]; [|right; right; reflexivity].
  destruct (predict_proba m [text]) as [qs|]; [|right; right; reflexivity].
  destruct (index0 qs) as [q|]; [|right; right; reflexivity].
  destruct (py_max q); [|right; right; reflexivity].
  apply sentiment_map_label.
Qed.

(** What [predict_sentiment] does in each state of the module global. *)
Lemma predict_sentiment_cases text w :
  predict_sentiment text w =
    match model w with
    | Some m => (Return (item_outcome m text), w)
    | None =>
        match model_file w with
        | Some (Return m) => (Return (item_outcome m text), set_model (Some m) w)
        | Some (Raise e) => (Raise e, w)
        | None => (Return (item_outcome unfitted_pipeline text),
                   set_model (Some unfitted_pipeline) w)
        end
    end.
Proof.
  destruct (model w) as [m|] eqn:Hm; [apply (predict_sentiment_loaded m text w Hm)|].
  unfold predict_sentiment, load_model, item_outcome, classify, default_outcome.
  unfold_m. rewrite Hm. cbv beta iota.
  destruct (model_file w) as [[m|e]|]; simpl; [|reflexivity|reflexivity].
  destruct (predict m [text]) as [ps|]; [|reflexivity].
  destruct (index0 ps) as [p|]; [|reflexivity].
  destruct (predict_proba m [text]) as [qs|]; [|reflexivity].
  destruct (index0 qs) as [q|]; [|reflexivity].
  destruct (py_max q); reflexivity.
Qed.

(** X1.  Whatever the classifier answers and whatever the state of the
    model, a sentiment [predict_sentiment] returns is one of "negative",
    "positive" and "neutral". *)
Theorem predict_sentiment_label (text : string) (w w' : World) (o : string * float) :
  predict_sentiment text w = (Return o, w') -> is_label (fst o).
Proof.
  rewrite predict_sentiment_cases.
  destruct (model w) as [m|].
  - intros H. inversion H. apply item_outcome_label.
  - destruct (model_file w) as [[m|e]|]; intros H; inversion H; apply item_outcome_label.
Qed.

Lemma predict_sentiment_label_witness : is_label (fst ("positive", 0.75%float)).
Proof.
  apply (predict_sentiment_label "great!" w_empty w_empty). reflexivity.
Defined.

(** X2.  Without a pickled model the first call installs the unfitted
    pipeline, and from then on every text is answered ("neutral", 0.5). *)
Theorem no_model_file_answers_neutral (text text' : string) (w : World) :
  model w = None -> model_file w = None ->
  predict_sentiment text w =
    (Return ("neutral", 0.5%float), set_model (Some unfitted_pipeline) w) /\
  predict_sentiment text' (set_model (Some unfitted_pipeline) w) =
    (Return ("neutral", 0.5%float), set_model (Some unfitted_pipeline) w).
Proof.
  intros Hm Hf. rewrite !predict_sentiment_cases. rewrite Hm, Hf. simpl. split; reflexivity.
Qed.

Lemma no_model_file_answers_neutral_witness :
  predict_sentiment "great!" w_no_file =
    (Return ("neutral", 0.5%float), set_model (Some unfitted_pipeline) w_no_file).
Proof.
  apply (no_model_file_answers_neutral "great!" "great!" w_no_file); reflexivity.
Defined.

(** X3.  The guard that loads the model stands before the try: when the
    model is not loaded and the pickled file does not load, the exception of
    the loader leaves [predict_sentiment], and the model stays unloaded. *)
Theorem load_failure_leaves_predict_sentiment (text : string) (w : World) (e : exn) :
  model w = None -> model_file w = Some (Raise e) ->
  predict_sentiment text w = (Raise e, w).
Proof.
  intros Hm Hf. rewrite predict_sentiment_cases. now rewrite Hm, Hf.
Qed.

Lemma load_failure_leaves_predict_sentiment_witness :
  predict_sentiment "great!" w_bad_file =
    (Raise (Exception "UnpicklingError" "invalid load key"), w_bad_file).
Proof.
  apply (load_failure_leaves_predict_sentiment "great!" w_bad_file); reflexivity.
Defined.

Lemma py_max_in xs c : py_max xs = Return c -> In c xs.
Proof.
  destruct xs as [|x rest]; simpl; [discriminate|].
  intros H. inversion H as [E]. clear H E.
  revert x. induction rest as [|y rest IH]; intros x; simpl; [now left|].
  destruct (IH (if PrimFloat.ltb x y then y else x)) as [E|Hin].
  - destruct (PrimFloat.ltb x y).
    + right. left. exact E.
    + left. exact E.
  - right. right. exact Hin.
Qed.

(** X4.  The confidence is never made up: an answer of
    [predict_sentiment] (model loaded) is the default ("neutral", 0.5), or
    it pairs the label of the classifier's first prediction with one of the
    probabilities of the first row the classifier reported. *)
Theorem predict_sentiment_confidence_reported (m : Model) (text : string) (w : World) :
  model w = Some m ->
  predict_sentiment text w = (Return ("neutral", 0.5%float), w) \/
  exists prediction ps probabilities qs confidence,
    predict m [text] = Return (prediction :: ps) /\
    predict_proba m [text] = Return (probabilities :: qs) /\
    In confidence probabilities /\
    predict_sentiment text w =
      (Return (dict_get sentiment_map prediction "neutral", confidence), w).
Proof.
  intros Hm. rewrite (predict_sentiment_loaded m text w Hm).
  unfold item_outcome, classify, default_outcome.
  destruct (predict m [text]) as [[|prediction ps]|]; simpl; auto.
  destruct (predict_proba m [text]) as [[|probabilities qs]|]; simpl; auto.
  destruct (py_max probabilities) as [confidence|] eqn:E; auto.
  right. exists prediction, ps, probabilities, qs, confidence.
  repeat split. apply (py_max_in probabilities confidence E).
Qed.

Lemma predict_sentiment_confidence_reported_witness :
  predict_sentiment "boom" w_empty = (Return ("neutral", 0.5%float), w_empty) \/
  exists prediction ps probabilities qs confidence,
    predict table_model ["boom"] = Return (prediction :: ps) /\
    predict_proba table_model ["boom"] = Return (probabilities :: qs) /\
    In confidence probabilities /\
    predict_sentiment "boom" w_empty =
      (Return (dict_get sentiment_map prediction "neutral", confidence), w_empty).
Proof.
  apply (predict_sentiment_confidence_reported table_model "boom" w_empty). reflexivity.
Defined.

(** ** The executor, further *)

Lemma classify_all_load_failure text rest results w e :
  model w = None -> model_file w = Some (Raise e) ->
  classify_all (text :: rest) results w = (Raise e, w).
Proof.
  intros Hm Hf. simpl. unfold bind. rewrite predict_sentiment_cases.
  now rewrite Hm, Hf.
Qed.

(** X5.  When the model cannot be loaded, a batch with at least one text
    fails as a whole: the executor returns normally and (storage not
    failing) leaves the job failed, its error the message of the loader and
    its result untouched.  An empty batch never needs the model and is
    completed with an empty result. *)
Theorem unloadable_model_fails_the_job (text : string) (rest : list string) (id : string)
    (w : World) (t : DBBackgroundTask) (e : exn) :
  model w = None -> model_file w = Some (Raise e) -> faults w = [] ->
  job id w = Some t ->
  fst (process_batch_sentiment (text :: rest) id w) = Return tt /\
  job id (snd (process_batch_sentiment (text :: rest) id w)) = Some (mark_failed e t) /\
  job id (snd (process_batch_sentiment [] id w)) = Some (mark_completed [] t).
Proof.
  intros Hm Hf F Hj. unfold job in *.
  assert (E1 : process_batch_sentiment (text :: rest) id w =
               (Return tt,
                set_background_tasks
                  (update_first (has_task_id id) (mark_failed e) (background_tasks w)) w)).
  { unfold process_batch_sentiment, try_except.
    unfold bind at 1. rewrite (classify_all_load_failure text rest [] w e Hm Hf).
    unfold query_first, commit_update, db_io, bind, ret. rewrite F, Hj. now rewrite F. }
  assert (E2 : process_batch_sentiment [] id w =
               (Return tt,
                set_background_tasks
                  (update_first (has_task_id id) (mark_completed []) (background_tasks w)) w)).
  { unfold process_batch_sentiment, try_except, query_first, commit_update, db_io, bind, ret.
    simpl. rewrite F, Hj. now rewrite F. }
  rewrite E1, E2. simpl.
  repeat split; rewrite find_update_first by reflexivity; now rewrite Hj.
Qed.

Lemma unloadable_model_fails_the_job_witness :
  job "J" (snd (process_batch_sentiment ["great!"; "awful."] "J" w_bad_file))
  = Some (row_J "failed" None (Some "invalid load key")).
Proof.
  apply (unloadable_model_fails_the_job "great!" ["awful."] "J" w_bad_file
           (row_J "pending" None None) (Exception "UnpicklingError" "invalid load key"));
    reflexivity.
Defined.

(** The rows after a run of the executor, whatever the model and the
    storage layer do. *)
Lemma executor_rows texts id w :
  let w' := snd (process_batch_sentiment texts id w) in
  scheduled w' = scheduled w /\
  (background_tasks w' = background_tasks w \/
   (exists results,
      background_tasks w' =
        update_first (has_task_id id) (mark_completed results) (background_tasks w)) \/
   (exists e,
      background_tasks w' =
        update_first (has_task_id id) (mark_failed e) (background_tasks w))).
Proof.
  pose proof (classify_all_frame texts [] w) as Hfr. unfold_m.
  destruct (classify_all texts [] w) as [[results|e] w0]; simpl in Hfr;
    destruct Hfr as (Hr & Hf & Hs);
    destruct (faults w0) as [|[msg1|] fs1] eqn:F1; simpl;
    repeat (rewrite ?F1; simpl;
      match goal with
      | |- context [find (has_task_id id) (background_tasks w0)] =>
          destruct (find (has_task_id id) (background_tasks w0)) eqn:?; simpl
      | |- context [match ?fs with [] => _ | _ => _ end] =>
          is_var fs; destruct fs as [|[?|] ?]; simpl
      end);
    rewrite ?F1; simpl; rewrite ?Hr; (split; [assumption|]); auto;
    try (right; left; eexists; reflexivity);
    try (right; right; eexists; reflexivity).
Qed.

Lemma map_update_first {B} (g : DBBackgroundTask -> B) p f rows :
  (forall r, g (f r) = g r) -> map g (update_first p f rows) = map g rows.
Proof.
  intros Hg. induction rows as [|r rest IH]; simpl; [reflexivity|].
  destruct (p r); simpl; [now rewrite Hg|now rewrite IH].
Qed.

(** X6.  A run of the executor adds no row and removes none, changes no
    task id, owner or task type, schedules nothing, and leaves the row of
    every other job as it was: whatever the model and the storage layer
    do. *)
Theorem executor_touches_one_job (texts : list string) (id : string) (w : World) :
  let w' := snd (process_batch_sentiment texts id w) in
  map task_id (background_tasks w') = map task_id (background_tasks w) /\
  map user_id (background_tasks w') = map user_id (background_tasks w) /\
  map task_type (background_tasks w') = map task_type (background_tasks w) /\
  scheduled w' = scheduled w /\
  forall id', id' <> id -> job id' w' = job id' w.
Proof.
  destruct (executor_rows texts id w) as [Hs [E|[[results E]|[e E]]]];
    simpl; unfold job; rewrite E;
    repeat split; auto;
    try (apply map_update_first; reflexivity);
    intros id' Hne; apply find_update_first_other;
    try reflexivity; intros r; apply has_task_id_other; congruence.
Qed.

Lemma executor_touches_one_job_witness :
  job "J" (snd (process_batch_sentiment ["great!"] "K"
                  (w_with [row_J "pending" None None; pending_row "K" 2] [])))
  = job "J" (w_with [row_J "pending" None None; pending_row "K" 2] []).
Proof.
  apply (executor_touches_one_job ["great!"] "K"
           (w_with [row_J "pending" None None; pending_row "K" 2] [])).
  discriminate.
Defined.






(** ** Submission, further *)

Lemma find_some_existsb {A} (p : A -> bool) (l : list A) x :
  find p l = Some x -> existsb p l = true.
Proof.
  induction l as [|y l IH]; simpl; [discriminate|].
  destruct (p y); simpl; [reflexivity|exact IH].
Qed.

(** X9.  A submission stores and schedules together or not at all: when
    the handler returns, the task id was free, exactly one pending row of
    the caller has been appended and exactly one call, with the texts
    submitted and that task id, has been scheduled; when it raises, neither
    the table nor the schedule has changed. *)
Theorem submission_is_all_or_nothing (texts : list string) (user : Z) (uuid4 : string)
    (w : World) :
  let w' := snd (analyze_sentiment_batch texts user uuid4 w) in
  match fst (analyze_sentiment_batch texts user uuid4 w) with
  | Return answer =>
      accepted_task_id answer = uuid4 /\ accepted_status answer = "pending" /\
      job uuid4 w = None /\
      background_tasks w' = background_tasks w ++ [pending_row uuid4 user] /\
      scheduled w' = scheduled w ++ [(texts, uuid4)]
  | Raise _ =>
      background_tasks w' = background_tasks w /\ scheduled w' = scheduled w
  end.
Proof.
  unfold_m. unfold job.
  destruct (faults w) as [|[msg|] fs]; simpl; auto;
    change (fun r : DBBackgroundTask => String.eqb (task_id r) uuid4) with (has_task_id uuid4);
    destruct (existsb (has_task_id uuid4) (background_tasks w)) eqn:E; simpl; auto;
    repeat split; apply (existsb_false_find _ _ E).
Qed.

(** X10.  A task id that is already in the table is refused: the handler
    (storage not failing) raises the integrity error of the unique column
    and leaves the world as it was, so no second executor is scheduled for
    that id. *)
Theorem taken_task_id_is_refused (texts : list string) (user : Z) (uuid4 : string)
    (w : World) (t : DBBackgroundTask) :
  faults w = [] -> job uuid4 w = Some t ->
  analyze_sentiment_batch texts user uuid4 w =
    (Raise (Exception "IntegrityError" "duplicate key value violates unique constraint"), w).
Proof.
  intros F Hj. unfold job in Hj. unfold_m. rewrite F. simpl.
  change (fun r : DBBackgroundTask => String.eqb (task_id r) uuid4) with (has_task_id uuid4).
  now rewrite (find_some_existsb _ _ _ Hj).
Qed.

Lemma taken_task_id_is_refused_witness :
  analyze_sentiment_batch ["awful."] 2 "J" w_pending =
    (Raise (Exception "IntegrityError" "duplicate key value violates unique constraint"),
     w_pending).
Proof.
  apply (taken_task_id_is_refused ["awful."] 2 "J" w_pending (row_J "pending" None None));
    reflexivity.
Defined.

(** ** Polling, further *)

(** X11.  A poll is a read: whatever the storage layer does it changes no
    row, schedules nothing and leaves the model alone; and when it returns,
    the answer is a row of the caller with the task id asked for, reported
    with its status, result and error as stored. *)
Theorem poll_reads_own_row (id : string) (user : Z) (w : World) :
  let w' := snd (get_task_status id user w) in
  background_tasks w' = background_tasks w /\ scheduled w' = scheduled w /\
  model w' = model w /\
  forall answer,
    fst (get_task_status id user w) = Return answer ->
    exists t,
      In t (background_tasks w) /\ task_id t = id /\ user_id t = user /\
      response_task_id answer = id /\ response_status answer = status t /\
      response_result answer = result t /\
      response_error_message answer = error_message t.
Proof.
  unfold_m. destruct (faults w) as [|[msg|] fs]; simpl;
    try (repeat split; auto; intros answer H; discriminate H);
    destruct (find _ (background_tasks w)) as [t|] eqn:E; simpl;
    repeat split; auto; intros answer H; try discriminate H;
    apply find_some in E; destruct E as [Hin Hp];
    apply andb_true_iff in Hp; destruct Hp as [H1 H2];
    apply String.eqb_eq in H1; apply Z.eqb_eq in H2;
    inversion H; subst answer; simpl;
    exists t; destruct (result t); repeat split; auto.
Qed.

Lemma poll_reads_own_row_witness :
  exists t,
    In t (background_tasks w_failed) /\ task_id t = "J" /\ user_id t = 1%Z /\
    response_task_id
      {| response_task_id := "J"; response_status := "failed"; response_result := None;
         response_error_message := Some "connection lost" |} = "J" /\
    "failed" = status t /\ None = result t /\ Some "connection lost" = error_message t.
Proof.
  destruct (poll_reads_own_row "J" 1 w_failed) as (_ & _ & _ & H).
  apply (H {| response_task_id := "J"; response_status := "failed"; response_result := None;
              response_error_message := Some "connection lost" |}).
  reflexivity.
Defined.


(** ** The running service, further *)

Lemma reachable_serve evs w : reachable w -> reachable (serve evs w).
Proof.
  intros (w0 & evs0 & H0 & ->). exists w0, (evs0 ++ evs). split; [assumption|].
  unfold serve. now rewrite fold_left_app.
Qed.

Lemma NoDup_snoc {A} (l : list A) (x : A) : NoDup l -> ~ In x l -> NoDup (l ++ [x]).
Proof.
  induction l as [|y l IH]; simpl; intros Hnd Hx.
  - constructor; [intros []|constructor].
  - inversion Hnd; subst. constructor.
    + intros Hin. apply in_app_or in Hin. destruct Hin as [Hin|[<-|[]]]; tauto.
    + apply IH; tauto.
Qed.

Lemma find_none_not_in id rows :
  find (has_task_id id) rows = None -> ~ In id (map task_id rows).
Proof.
  intros Hf Hin. apply in_map_iff in Hin. destruct Hin as [r [E Hin]].
  apply (find_none _ _ Hf) in Hin. unfold has_task_id in Hin.
  rewrite E, String.eqb_refl in Hin. discriminate Hin.
Qed.

Lemma executor_write_keeps m texts f r :
  executor_write m texts f ->
  task_id (f r) = task_id r /\ user_id (f r) = user_id r /\ task_type (f r) = task_type r.
Proof. intros []; simpl; auto. Qed.

Lemma task_ids_distinct_handle ev w :
  invariant w -> NoDup (map task_id (background_tasks w)) ->
  NoDup (map task_id (background_tasks (handle ev w))).
Proof.
  intros Hw Hnd. destruct (model w) as [m|] eqn:Em; [|exfalso; exact (inv_model w Hw Em)].
  destruct (handle_effect m ev w Em) as [_ Heff].
  destruct Heff as [Hr _|texts user uuid Hj Hr _|texts id f _ _ Hf Hr]; rewrite Hr.
  - assumption.
  - rewrite map_app. simpl. apply NoDup_snoc; [assumption|].
    apply find_none_not_in. exact Hj.
  - rewrite map_update_first; [assumption|].
    intros r. apply (executor_write_keeps m texts f r Hf).
Qed.

Lemma task_ids_distinct_reachable w :
  reachable w -> NoDup (map task_id (background_tasks w)).
Proof.
  intros (w0 & evs & H0 & ->).
  assert (Hinv : invariant w0) by now apply invariant_started.
  assert (Hnd : NoDup (map task_id (background_tasks w0))).
  { destruct H0 as [file fs w0 H]. unfold load_model, fresh in H. simpl in H.
    destruct file as [[m|e]|]; inversion H; subst; simpl; constructor. }
  clear H0. revert w0 Hinv Hnd. induction evs as [|ev evs IH]; intros w0 Hinv Hnd; simpl;
    [assumption|].
  apply IH.
  - now apply invariant_handle.
  - now apply task_ids_distinct_handle.
Qed.

(** X12.  In every world the service can reach, no two rows of the table
    carry the same task id: a job id names one job. *)
Theorem task_ids_are_unique (w : World) (r r' : DBBackgroundTask) :
  reachable w -> In r (background_tasks w) -> In r' (background_tasks w) ->
  task_id r = task_id r' -> r = r'.
Proof.
  intros Hw Hin Hin' E. apply task_ids_distinct_reachable in Hw.
  induction (background_tasks w) as [|x rows IH]; simpl in *; [contradiction|].
  inversion Hw as [|y l Hnotin Hnd]; subst.
  destruct Hin as [<-|Hin], Hin' as [<-|Hin']; auto.
  - exfalso. apply Hnotin. rewrite E. now apply in_map.
  - exfalso. apply Hnotin. rewrite <- E. now apply in_map.
Qed.

Lemma task_ids_are_unique_witness :
  pending_row "J" 1 = pending_row "J" 1.
Proof.
  apply (task_ids_are_unique
           (serve [Submit ["great!"] 1 "J"; Submit ["awful."] 2 "J"] w_empty)).
  - exists w_empty, [Submit ["great!"] 1 "J"; Submit ["awful."] 2 "J"].
    split; [|reflexivity].
    apply (started_intro (Some (Return table_model)) [] w_empty). reflexivity.
  - left. reflexivity.
  - left. reflexivity.
  - reflexivity.
Defined.

Lemma job_kept_handle ev w id r :
  invariant w -> job id w = Some r ->
  exists r', job id (handle ev w) = Some r' /\
    task_id r' = task_id r /\ user_id r' = user_id r /\ task_type r' = task_type r.
Proof.
  intros Hw Hj. pose proof (job_step ev w id Hw) as Hstep. rewrite Hj in Hstep.
  destruct Hstep as [H|[_ (m & texts & f & Hf & H)]].
  - exists r. auto.
  - exists (f r). split; [assumption|]. apply (executor_write_keeps m texts f r Hf).
Qed.

Lemma job_kept_serve evs : forall w id r,
  invariant w -> job id w = Some r ->
  exists r', job id (serve evs w) = Some r' /\
    task_id r' = task_id r /\ user_id r' = user_id r /\ task_type r' = task_type r.
Proof.
  induction evs as [|ev evs IH]; intros w id r Hw Hj; simpl.
  - exists r. auto.
  - destruct (job_kept_handle ev w id r Hw Hj) as (r1 & Hj1 & E1 & E2 & E3).
    destruct (IH (handle ev w) id r1 (invariant_handle ev w Hw) Hj1) as (r2 & Hj2 & F1 & F2 & F3).
    exists r2. repeat split; congruence.
Qed.

(** X13.  The service never deletes a job and never hands it to someone
    else: a job that exists still exists after any sequence of submissions,
    polls and background runs, under the same task id, owner and task
    type. *)
Theorem job_is_never_deleted (evs : list event) (w : World) (id : string)
    (r : DBBackgroundTask) :
  reachable w -> job id w = Some r ->
  exists r', job id (serve evs w) = Some r' /\
    task_id r' = task_id r /\ user_id r' = user_id r /\ task_type r' = task_type r.
Proof.
  intros Hw Hj. apply job_kept_serve; [now apply invariant_reachable|assumption].
Qed.

Lemma job_is_never_deleted_witness :
  exists r', job "J" (serve [RunBackground; Poll "J" 2; Submit ["awful."] 2 "K"]
                        (serve [Submit ["great!"] 1 "J"] w_empty)) = Some r' /\
    task_id r' = "J" /\ user_id r' = 1%Z /\ task_type r' = "batch_sentiment_analysis".
Proof.
  apply (job_is_never_deleted [RunBackground; Poll "J" 2; Submit ["awful."] 2 "K"]
           (serve [Submit ["great!"] 1 "J"] w_empty) "J" (pending_row "J" 1)).
  - exists w_empty, [Submit ["great!"] 1 "J"]. split; [|reflexivity].
    apply (started_intro (Some (Return table_model)) [] w_empty). reflexivity.
  - reflexivity.
Defined.

Lemma unique_job_rows w id r r' :
  NoDup (map task_id (background_tasks w)) -> job id w = Some r ->
  In r' (background_tasks w) -> task_id r' = id -> r' = r.
Proof.
  unfold job. intros Hnd Hj Hin E.
  induction (background_tasks w) as [|x rows IH]; simpl in *; [contradiction|].
  inversion Hnd as [|y l Hnotin Hnd']; subst.
  unfold has_task_id in Hj at 1.
  destruct (String.eqb (task_id x) (task_id r')) eqn:Ex.
  - injection Hj as <-. destruct Hin as [->|Hin]; [reflexivity|].
    apply String.eqb_eq in Ex. exfalso. apply Hnotin. rewrite Ex. now apply in_map.
  - destruct Hin as [->|Hin]; [rewrite String.eqb_refl in Ex; discriminate Ex|].
    now apply IH.
Qed.

(** X14.  A job stays private for good: after any sequence of events, a
    poll for it by anyone but its owner ends in 404 "Task not found", and a
    poll by its owner is answered (storage not failing at the poll). *)
Theorem job_stays_private (evs : list event) (w : World) (id : string)
    (r : DBBackgroundTask) (user : Z) :
  reachable w -> job id w = Some r -> user <> user_id r ->
  faults (serve evs w) = [] ->
  get_task_status id user (serve evs w)
    = (Raise (HTTPException 404 "Task not found"), serve evs w) /\
  exists answer,
    get_task_status id (user_id r) (serve evs w) = (Return answer, serve evs w) /\
    response_task_id answer = id.
Proof.
  intros Hw Hj Hne F.
  destruct (job_kept_serve evs w id r (invariant_reachable w Hw) Hj)
    as (r' & Hj' & E1 & E2 & _).
  pose proof (task_ids_distinct_reachable _ (reachable_serve evs w Hw)) as Hnd.
  assert (Hid : task_id r' = id).
  { unfold job in Hj'. apply find_some in Hj'. destruct Hj' as [_ Hp].
    unfold has_task_id in Hp. now apply String.eqb_eq in Hp. }
  split.
  - unfold_m. rewrite F. simpl. rewrite not_visible_find; [reflexivity|].
    intros x Hin Ex. rewrite (unique_job_rows _ id r' x Hnd Hj' Hin Ex). congruence.
  - unfold_m. rewrite F. simpl.
    assert (Hfind : find (fun x => String.eqb (task_id x) id && Z.eqb (user_id x) (user_id r))
                      (background_tasks (serve evs w)) = Some r').
    { unfold job in Hj'. revert Hj' Hnd.
      induction (background_tasks (serve evs w)) as [|x rows IH]; simpl; [discriminate|].
      unfold has_task_id at 1. intros Hf Hnd'.
      destruct (String.eqb (task_id x) id) eqn:Ex; simpl.
      - injection Hf as ->. rewrite E2, Z.eqb_refl. reflexivity.
      - apply IH; [assumption|]. now inversion Hnd'. }
    rewrite Hfind. eexists. split; [reflexivity|]. simpl. exact Hid.
Qed.

Lemma job_stays_private_witness :
  get_task_status "J" 2 (serve [RunBackground; Submit ["awful."] 2 "K"]
                           (serve [Submit ["great!"] 1 "J"] w_empty))
  = (Raise (HTTPException 404 "Task not found"),
     serve [RunBackground; Submit ["awful."] 2 "K"] (serve [Submit ["great!"] 1 "J"] w_empty)).
Proof.
  apply (job_stays_private [RunBackground; Submit ["awful."] 2 "K"]
           (serve [Submit ["great!"] 1 "J"] w_empty) "J" (pending_row "J" 1) 2).
  - exists w_empty, [Submit ["great!"] 1 "J"]. split; [|reflexivity].
    apply (started_intro (Some (Return table_model)) [] w_empty). reflexivity.
  - reflexivity.
  - simpl. lia.
  - reflexivity.
Defined.

Lemma unscheduled_pending_handle ev w id r :
  invariant w -> job id w = Some r -> ~ In id (map snd (scheduled w)) ->
  job id (handle ev w) = Some r /\ ~ In id (map snd (scheduled (handle ev w))).
Proof.
  intros Hw Hj Hns. destruct (model w) as [m|] eqn:Em; [|exfalso; exact (inv_model w Hw Em)].
  destruct (handle_effect m ev w Em) as [_ Heff].
  destruct Heff as [Hr Hs|texts user uuid Hju Hr Hs|texts id0 f Hs _ Hf Hr];
    unfold job in *; rewrite Hr.
  - split; [assumption|]. destruct Hs as [Hs|[call Hs]]; [now rewrite Hs|].
    rewrite Hs in Hns. simpl in Hns. tauto.
  - split; [now rewrite find_app_cases, Hj|].
    rewrite Hs, map_app. simpl. intros Hin. apply in_app_or in Hin.
    destruct Hin as [Hin|[E|[]]]; [tauto|]. subst uuid. congruence.
  - rewrite Hs in Hns. simpl in Hns. split; [|tauto].
    rewrite find_update_first_other; [assumption| |].
    + intros x. apply (executor_write_keeps_id m texts f id x Hf).
    + intros x. apply has_task_id_other. tauto.
Qed.

(** X15.  Nothing retries a job: a job whose executor is no longer
    scheduled keeps its record through every later submission, poll and
    background run; in particular a job left pending by an executor that
    raised stays pending for good. *)
Theorem unscheduled_job_is_never_run (evs : list event) (w : World) (id : string)
    (r : DBBackgroundTask) :
  reachable w -> job id w = Some r -> ~ In id (map snd (scheduled w)) ->
  job id (serve evs w) = Some r.
Proof.
  intros Hw. apply invariant_reachable in Hw. revert w Hw.
  induction evs as [|ev evs IH]; intros w Hw Hj Hns; simpl; [assumption|].
  destruct (unscheduled_pending_handle ev w id r Hw Hj Hns) as [Hj' Hns'].
  apply IH; [now apply invariant_handle|assumption|assumption].
Qed.

Lemma unscheduled_job_is_never_run_witness :
  job "J" (serve [RunBackground; Poll "J" 1; RunBackground]
             (serve [Submit ["great!"] 1 "J"; RunBackground]
                (w_with [] [None; Some "connection lost"; Some "connection lost"])))
  = Some (pending_row "J" 1).
Proof.
  apply (unscheduled_job_is_never_run [RunBackground; Poll "J" 1; RunBackground]
           (serve [Submit ["great!"] 1 "J"; RunBackground]
              (w_with [] [None; Some "connection lost"; Some "connection lost"])) "J").
  - exists (w_with [] [None; Some "connection lost"; Some "connection lost"]),
      [Submit ["great!"] 1 "J"; RunBackground].
    split; [|reflexivity].
    apply (started_intro (Some (Return table_model))
             [None; Some "connection lost"; Some "connection lost"]).
    reflexivity.
  - reflexivity.
  - simpl. tauto.
Defined.

(** X16.  The service schedules at most one executor per job and only for
    jobs that wait: in every reachable world the scheduled calls have
    distinct task ids, and each is for a job that exists and is pending, with
    no result and no error yet. *)
Theorem scheduled_calls_are_distinct_and_pending (w : World) :
  reachable w ->
  NoDup (map snd (scheduled w)) /\
  forall texts id, In (texts, id) (scheduled w) ->
    exists r, job id w = Some r /\ status r = "pending" /\
              result r = None /\ error_message r = None.
Proof.
  intros Hw. apply invariant_reachable in Hw. split; [exact (inv_nodup w Hw)|].
  intros texts id Hin. destruct (inv_queue w Hw texts id Hin) as [r [Hj Hs]].
  exists r. split; [assumption|]. split; [assumption|].
  apply well_formed_pending; [|assumption].
  apply (inv_rows w Hw). unfold job in Hj. apply find_some in Hj. tauto.
Qed.

Lemma scheduled_calls_are_distinct_and_pending_witness :
  NoDup (map snd (scheduled (serve [Submit ["great!"] 1 "J"; Submit ["awful."] 2 "K"] w_empty))).
Proof.
  apply (scheduled_calls_are_distinct_and_pending
           (serve [Submit ["great!"] 1 "J"; Submit ["awful."] 2 "K"] w_empty)).
  exists w_empty, [Submit ["great!"] 1 "J"; Submit ["awful."] 2 "K"].
  split; [|reflexivity].
  apply (started_intro (Some (Return table_model)) [] w_empty). reflexivity.
Defined.

Lemma item_entries_shaped m texts : Forall is_result_entry (map (item_entry m) texts).
Proof.
  apply Forall_forall. intros j Hin. apply in_map_iff in Hin.
  destruct Hin as [text [<- _]]. unfold item_entry.
  exists text, (fst (item_outcome m text)), (snd (item_outcome m text)).
  split; [reflexivity|apply item_outcome_label].
Qed.

Lemma results_shaped_handle ev w :
  invariant w ->
  (forall r, In r (background_tasks w) ->
     result r = None \/
     exists entries, result r = Some (JList entries) /\ Forall is_result_entry entries) ->
  forall r, In r (background_tasks (handle ev w)) ->
    result r = None \/
    exists entries, result r = Some (JList entries) /\ Forall is_result_entry entries.
Proof.
  intros Hw Hsh. destruct (model w) as [m|] eqn:Em; [|exfalso; exact (inv_model w Hw Em)].
  destruct (handle_effect m ev w Em) as [_ Heff].
  destruct Heff as [Hr _|texts user uuid _ Hr _|texts id f _ _ Hf Hr]; rewrite Hr.
  - assumption.
  - intros r Hin. apply in_app_or in Hin. destruct Hin as [Hin|[<-|[]]]; [auto|now left].
  - intros r Hin. apply in_update_first in Hin.
    destruct Hin as [Hin|[r0 [Hfind ->]]]; [auto|].
    destruct Hf; simpl.
    + right. eexists. split; [reflexivity|apply item_entries_shaped].
    + apply Hsh. apply find_some in Hfind. tauto.
Qed.

(** X17.  What a poller can find as the result of a job is always a list
    of entries, each a dict with the keys "text", "sentiment" and
    "confidence" in that order, its sentiment one of "negative", "positive"
    and "neutral": in every reachable world, every row with a result has one
    of that shape. *)
Theorem results_are_lists_of_entries (w : World) (r : DBBackgroundTask) (document : json) :
  reachable w -> In r (background_tasks w) -> result r = Some document ->
  exists entries, document = JList entries /\ Forall is_result_entry entries.
Proof.
  intros (w0 & evs & H0 & ->) Hin Hres.
  assert (Hall : forall r, In r (background_tasks (serve evs w0)) ->
            result r = None \/
            exists entries, result r = Some (JList entries) /\ Forall is_result_entry entries).
  { assert (Hinv : invariant w0) by now apply invariant_started.
    assert (H00 : forall r, In r (background_tasks w0) ->
              result r = None \/
              exists entries, result r = Some (JList entries) /\ Forall is_result_entry entries).
    { destruct H0 as [file fs w0 H]. unfold load_model, fresh in H. simpl in H.
      destruct file as [[m|e]|]; inversion H; subst; simpl; intros ? []. }
    clear H0 Hin Hres. revert w0 Hinv H00.
    induction evs as [|ev evs IH]; intros w0 Hinv H00; simpl; [assumption|].
    apply IH; [now apply invariant_handle|now apply results_shaped_handle]. }
  destruct (Hall r Hin) as [E|[entries [E Hf]]]; [congruence|].
  exists entries. split; [congruence|assumption].
Qed.

Lemma results_are_lists_of_entries_witness :
  exists entries,
    JList [result_entry "great!" "positive" 0.75%float; result_entry "boom" "neutral" 0.5%float]
      = JList entries /\ Forall is_result_entry entries.
Proof.
  apply (results_are_lists_of_entries
           (serve [Submit ["great!"; "boom"] 1 "J"; RunBackground] w_empty)
           (row_J "completed"
              (Some (JList [result_entry "great!" "positive" 0.75%float;
                            result_entry "boom" "neutral" 0.5%float])) None)).
  - exists w_empty, [Submit ["great!"; "boom"] 1 "J"; RunBackground].
    split; [|reflexivity].
    apply (started_intro (Some (Return table_model)) [] w_empty). reflexivity.
  - left. reflexivity.
  - reflexivity.
Defined.

(** ** main.py: the Celery task *)

Lemma analyze_text_task_loaded m text w :
  model w = Some m -> analyze_text_task text w = (Return (item_entry m text), w).
Proof.
  intros Hm. unfold analyze_text_task, bind, ret.
  now rewrite (predict_sentiment_loaded m text w Hm).
Qed.

(** X18.  The Celery task and the batch executor agree: the result the
    executor stores for a batch is the list of the dicts
    [analyze_text_task] returns for its texts, one by one and in order
    (model loaded, storage not failing); and the task never raises. *)
Theorem batch_result_lists_task_answers (m : Model) (texts : list string) (id : string)
    (w : World) (t : DBBackgroundTask) :
  model w = Some m -> faults w = [] -> job id w = Some t ->
  exists entries,
    Forall2 (fun text entry => analyze_text_task text w = (Return entry, w)) texts entries /\
    option_map result (job id (snd (process_batch_sentiment texts id w)))
      = Some (Some (JList entries)).
Proof.
  intros Hm F Hj. exists (map (item_entry m) texts). split.
  - induction texts as [|text rest IH]; simpl; constructor; [|exact IH].
    apply (analyze_text_task_loaded m text w Hm).
  - rewrite (executor_reliable m texts id w Hm F), Hj. unfold job in *. simpl.
    rewrite find_update_first by reflexivity. now rewrite Hj.
Qed.

Lemma batch_result_lists_task_answers_witness :
  exists entries,
    Forall2 (fun text entry => analyze_text_task text w_pending = (Return entry, w_pending))
      ["great!"; "boom"] entries /\
    option_map result (job "J" (snd (process_batch_sentiment ["great!"; "boom"] "J" w_pending)))
      = Some (Some (JList entries)).
Proof.
  apply (batch_result_lists_task_answers table_model ["great!"; "boom"] "J" w_pending
           (row_J "pending" None None)); reflexivity.
Defined.

(** ** routers/health.py *)

(** X19.  The health check always answers and only reads: it never
    raises, whatever the database and Redis do, and changes no row, no
    schedule and no model.  Its answer has the four keys "status", "api",
    "database", "redis"; "api" is always "ok"; and "status" is "healthy"
    exactly when both "database" and "redis" are "ok", "unhealthy"
    otherwise. *)
Theorem health_check_answers (redis_ping : completion unit) (w : World) :
  exists answer,
    fst (health_check redis_ping w) = Return answer /\
    background_tasks (snd (health_check redis_ping w)) = background_tasks w /\
    scheduled (snd (health_check redis_ping w)) = scheduled w /\
    model (snd (health_check redis_ping w)) = model w /\
    map fst answer = ["status"; "api"; "database"; "redis"] /\
    dict_lookup answer "api" = Some "ok" /\
    (dict_lookup answer "status" = Some "healthy" <->
     dict_lookup answer "database" = Some "ok" /\ dict_lookup answer "redis" = Some "ok") /\
    (dict_lookup answer "status" = Some "healthy" \/
     dict_lookup answer "status" = Some "unhealthy").
Proof.
  unfold health_check. unfold_m.
  destruct (faults w) as [|[msg|] fs], redis_ping as [[]|e]; simpl;
    eexists; (split; [reflexivity|]); simpl; repeat split; auto;
    try (intros; discriminate);
    try (intros [H1 H2]; discriminate).
Qed.

(** X20.  Each dependency is checked and named on its own: the "database"
    entry is "ok" when the round trip goes through and "error: " followed by
    the message when it raises, and the same holds for "redis", whether or
    not the database check failed before. *)
Theorem health_check_names_failures (redis_ping : completion unit) (w : World)
    (answer : list (string * string)) :
  fst (health_check redis_ping w) = Return answer ->
  dict_lookup answer "database" =
    Some match faults w with
         | Some msg :: _ => ("error: " ++ msg)%string
         | _ => "ok"
         end /\
  dict_lookup answer "redis" =
    Some match redis_ping with
         | Raise e => ("error: " ++ str e)%string
         | Return _ => "ok"
         end.
Proof.
  unfold health_check. unfold_m.
  destruct (faults w) as [|[msg|] fs], redis_ping as [[]|e]; simpl;
    intros H; inversion H; subst; simpl; split; reflexivity.
Qed.

Lemma health_check_names_failures_witness :
  dict_lookup [("status", "unhealthy"); ("api", "ok"); ("database", "ok");
               ("redis", "error: connection refused")] "redis"
  = Some "error: connection refused".
Proof.
  apply (health_check_names_failures
           (Raise (Exception "ConnectionError" "connection refused")) w_empty).
  reflexivity.
Defined.

(** ** The synchronous endpoint *)

Lemma in_world_predict_sentiment text s :
  in_world (predict_sentiment text) s =
    (fst (predict_sentiment text (world s)),
     set_world (snd (predict_sentiment text (world s))) s).
Proof. unfold in_world. now destruct (predict_sentiment text (world s)). Qed.

(** X21.  The synchronous endpoint keeps its history in step with its
    answers and stays off the job store: when it returns, exactly one row
    has been appended to the history, carrying the caller, the text and the
    very sentiment, confidence and processing time of the answer, and the
    sentiment is one of the three labels; when it raises, the history is as
    it was.  In both cases no job row, no scheduled call and no account has
    changed.  This holds whatever the model and the storage layer do. *)
Theorem analyze_sentiment_records_its_answer (text : string) (user : Z)
    (start_time end_time : float) (s : Service) :
  let s' := snd (analyze_sentiment text user start_time end_time s) in
  background_tasks (world s') = background_tasks (world s) /\
  scheduled (world s') = scheduled (world s) /\
  users s' = users s /\
  match fst (analyze_sentiment text user start_time end_time s) with
  | Return answer =>
      sync_text answer = text /\ is_label (sync_sentiment answer) /\
      sentiment_requests s' =
        sentiment_requests s ++
        [{| DBSentimentRequest.user_id := user;
            DBSentimentRequest.text := text;
            DBSentimentRequest.sentiment := sync_sentiment answer;
            DBSentimentRequest.confidence := sync_confidence answer;
            DBSentimentRequest.processing_time := sync_processing_time answer |}]
  | Raise _ => sentiment_requests s' = sentiment_requests s
  end.
Proof.
  unfold analyze_sentiment, commit_add_request, sbind, sret.
  rewrite in_world_predict_sentiment.
  pose proof (predict_sentiment_frame text (world s)) as Hfr.
  assert (Hlab : forall w1 o,
            predict_sentiment text (world s) = (Return o, w1) -> is_label (fst o)).
  { intros w1 o. rewrite predict_sentiment_cases.
    destruct (model (world s)) as [m|]; [|destruct (model_file (world s)) as [[m|e]|]];
      intros H; inversion H; apply item_outcome_label. }
  destruct (predict_sentiment text (world s)) as [[o|e] w1]; simpl in *;
    destruct Hfr as (H1 & H2 & H3); [|auto].
  unfold in_world, db_io. simpl.
  destruct (faults w1) as [|[msg|] fs]; simpl; repeat split; auto;
    apply (Hlab w1 o eq_refl).
Qed.

(** X22.  With the model loaded and the storage layer not failing, the
    synchronous endpoint returns the outcome the batch path computes for the
    same text: its sentiment and confidence make the entry a batch stores
    for that text, and its processing time is the difference of the two
    clock readings. *)
Theorem analyze_sentiment_agrees_with_batch (m : Model) (text : string) (user : Z)
    (start_time end_time : float) (s : Service) :
  model (world s) = Some m -> faults (world s) = [] ->
  exists answer,
    fst (analyze_sentiment text user start_time end_time s) = Return answer /\
    result_entry text (sync_sentiment answer) (sync_confidence answer) = item_entry m text /\
    sync_processing_time answer = PrimFloat.sub end_time start_time /\
    forall id t, job id (world s) = Some t ->
      option_map result (job id (snd (process_batch_sentiment [text] id (world s))))
        = Some (Some (JList [result_entry text (sync_sentiment answer)
                               (sync_confidence answer)])).
Proof.
  intros Hm F.
  unfold analyze_sentiment, commit_add_request, sbind, sret.
  rewrite in_world_predict_sentiment.
  rewrite (predict_sentiment_loaded m text (world s) Hm). simpl.
  unfold in_world, db_io. simpl. rewrite F. simpl.
  eexists. split; [reflexivity|]. simpl. split; [reflexivity|]. split; [reflexivity|].
  intros id t Hj. rewrite (executor_reliable m [text] id (world s) Hm F), Hj.
  unfold job in *. simpl. rewrite find_update_first by reflexivity. now rewrite Hj.
Qed.

Lemma analyze_sentiment_agrees_with_batch_witness :
  exists answer,
    fst (analyze_sentiment "great!" 1 10.5%float 10.75%float s_empty) = Return answer /\
    result_entry "great!" (sync_sentiment answer) (sync_confidence answer)
      = item_entry table_model "great!" /\
    sync_processing_time answer = PrimFloat.sub 10.75%float 10.5%float.
Proof.
  destruct (analyze_sentiment_agrees_with_batch table_model "great!" 1
              10.5%float 10.75%float s_empty eq_refl eq_refl)
    as (answer & H1 & H2 & H3 & _).
  exists answer. auto.
Defined.

(** ** routers/auth.py *)

Lemma set_world_same s : set_world (world s) s = s.
Proof. now destruct s. Qed.

(** One storage round trip inside the service: it can only consume an
    entry of the fault schedule. *)
Lemma in_world_db_io s :
  users (snd (in_world db_io s)) = users s /\
  sentiment_requests (snd (in_world db_io s)) = sentiment_requests s /\
  background_tasks (world (snd (in_world db_io s))) = background_tasks (world s) /\
  scheduled (world (snd (in_world db_io s))) = scheduled (world s) /\
  (fst (in_world db_io s) = Return tt \/
   exists msg, fst (in_world db_io s) = Raise (Exception "OperationalError" msg)) /\
  (faults (world s) = [] -> in_world db_io s = (Return tt, s)).
Proof.
  unfold in_world, db_io.
  destruct (faults (world s)) as [|[msg|] fs] eqn:F; simpl; repeat split; eauto;
    try discriminate.
  intros _. now rewrite set_world_same.
Qed.

Lemma find_exists {A} (p : A -> bool) (l : list A) x :
  In x l -> p x = true -> exists y, find p l = Some y.
Proof.
  intros Hin Hp. destruct (find p l) as [y|] eqn:E; [eauto|].
  rewrite (find_none _ _ E x Hin) in Hp. discriminate Hp.
Qed.

(** X23.  A user name or an e-mail address that is already taken is
    refused: [register] (storage not failing) raises HTTP 400 "Username or
    email already registered" and changes nothing. *)
Theorem register_refuses_taken_name_or_mail (sec : Security)
    (username email password : string) (s : Service) (u : User.row) :
  faults (world s) = [] -> In u (users s) ->
  User.username u = username \/ User.email u = email ->
  register sec username email password s =
    (Raise (HTTPException 400 "Username or email already registered"), s).
Proof.
  intros F Hin Hu. unfold register, query_first_user, sbind, sraise.
  destruct (in_world_db_io s) as (_ & _ & _ & _ & _ & Hio). rewrite (Hio F).
  destruct (find_exists
              (fun r => String.eqb (User.username r) username || String.eqb (User.email r) email)
              (users s) u Hin) as [y Hy].
  - apply orb_true_iff. destruct Hu as [<-|<-]; [left|right]; apply String.eqb_refl.
  - now rewrite Hy.
Qed.

Lemma register_refuses_taken_name_or_mail_witness :
  register example_security "ann" "other@example.org" "pw"
    (snd (register example_security "ann" "ann@example.org" "secret" s_empty))
  = (Raise (HTTPException 400 "Username or email already registered"),
     snd (register example_security "ann" "ann@example.org" "secret" s_empty)).
Proof.
  apply (register_refuses_taken_name_or_mail example_security "ann" "other@example.org" "pw"
           (snd (register example_security "ann" "ann@example.org" "secret" s_empty))
           {| User.email := "ann@example.org"; User.username := "ann";
              User.hashed_password := "hashed:secret";
              User.is_active := true; User.is_superuser := false |}).
  - reflexivity.
  - left. reflexivity.
  - left. reflexivity.
Defined.

(** What [register] does to the accounts, whatever the storage layer
    does. *)
Lemma register_effect sec username email password s :
  let u := {| User.email := email; User.username := username;
              User.hashed_password := get_password_hash sec password;
              User.is_active := true; User.is_superuser := false |} in
  let s' := snd (register sec username email password s) in
  sentiment_requests s' = sentiment_requests s /\
  background_tasks (world s') = background_tasks (world s) /\
  scheduled (world s') = scheduled (world s) /\
  match fst (register sec username email password s) with
  | Return row =>
      row = u /\ users s' = users s ++ [u] /\
      forall r, In r (users s) -> User.username r <> username /\ User.email r <> email
  | Raise (HTTPException _ _) => users s' = users s
  | Raise (Exception _ _) =>
      users s' = users s \/
      (users s' = users s ++ [u] /\
       forall r, In r (users s) -> User.username r <> username /\ User.email r <> email)
  end.
Proof.
  unfold register, query_first_user, commit_add_user, sbind, sret, sraise.
  destruct (in_world_db_io s) as (U1 & R1 & B1 & Q1 & [E1|[msg1 E1]] & _);
    destruct (in_world db_io s) as [r1 s1]; simpl in *; subst r1; simpl;
    [|repeat split; auto].
  rewrite U1.
  destruct (find _ (users s)) as [existing|] eqn:Hfind; simpl; [repeat split; auto|].
  assert (Hfree : forall r, In r (users s) ->
                    User.username r <> username /\ User.email r <> email).
  { intros r Hin. pose proof (find_none _ _ Hfind r Hin) as Hp. simpl in Hp.
    apply orb_false_iff in Hp. destruct Hp as [H1 H2].
    apply String.eqb_neq in H1, H2. auto. }
  destruct (in_world_db_io s1) as (U2 & R2 & B2 & Q2 & [E2|[msg2 E2]] & _);
    destruct (in_world db_io s1) as [r2 s2]; simpl in *; subst r2; simpl;
    [|repeat split; try congruence; left; congruence].
  destruct (existsb _ (users s2)); simpl;
    [repeat split; try congruence; left; congruence|].
  destruct (in_world_db_io (set_users (users s2 ++ [{| User.email := email;
                User.username := username;
                User.hashed_password := get_password_hash sec password;
                User.is_active := true; User.is_superuser := false |}]) s2))
    as (U3 & R3 & B3 & Q3 & [E3|[msg3 E3]] & _);
    destruct (in_world db_io (set_users _ s2)) as [r3 s3]; simpl in *; subst r3; simpl.
  - split; [congruence|]. split; [congruence|]. split; [congruence|].
    split; [reflexivity|]. split; [congruence|assumption].
  - split; [congruence|]. split; [congruence|]. split; [congruence|].
    right. split; [congruence|assumption].
Qed.

(** X24.  Registration keeps accounts apart: starting from accounts with
    pairwise distinct user names and pairwise distinct e-mail addresses, any
    sequence of registrations leaves them so, whatever the storage layer
    does; and it never touches the history or the job store. *)
Theorem registrations_keep_accounts_distinct (sec : Security)
    (requests : list (string * string * string)) (s : Service) :
  accounts_distinct (users s) ->
  accounts_distinct (users (register_all sec requests s)) /\
  sentiment_requests (register_all sec requests s) = sentiment_requests s /\
  background_tasks (world (register_all sec requests s)) = background_tasks (world s).
Proof.
  revert s. induction requests as [|[[username email] password] rest IH]; intros s Hd; simpl;
    [auto|].
  pose proof (register_effect sec username email password s) as He. simpl in He.
  destruct He as (R & B & _ & He).
  assert (Hd' : accounts_distinct (users (snd (register sec username email password s)))).
  { assert (Hadd : forall us,
              us = users s ++ [{| User.email := email; User.username := username;
                                  User.hashed_password := get_password_hash sec password;
                                  User.is_active := true; User.is_superuser := false |}] ->
              (forall r, In r (users s) ->
                 User.username r <> username /\ User.email r <> email) ->
              accounts_distinct us).
    { intros us -> Hfree. destruct Hd as [Hn Hm]. unfold accounts_distinct.
      rewrite !map_app. simpl. split; apply NoDup_snoc; try assumption;
        intros Hin; apply in_map_iff in Hin; destruct Hin as [r [E Hin]];
        destruct (Hfree r Hin); congruence. }
    destruct (fst (register sec username email password s)) as [row|[code detail|class msg]].
    - destruct He as (_ & E & Hfree). exact (Hadd _ E Hfree).
    - now rewrite He.
    - destruct He as [E|[E Hfree]]; [now rewrite E|exact (Hadd _ E Hfree)]. }
  destruct (IH _ Hd') as (I1 & I2 & I3).
  split; [exact I1|]. split; [rewrite I2; exact R|rewrite I3; exact B].
Qed.

Lemma registrations_keep_accounts_distinct_witness :
  accounts_distinct
    (users (register_all example_security
              [("ann", "ann@example.org", "secret"); ("ann", "other@example.org", "pw");
               ("bob", "bob@example.org", "hunter2")] s_empty)).
Proof.
  apply (registrations_keep_accounts_distinct example_security
           [("ann", "ann@example.org", "secret"); ("ann", "other@example.org", "pw");
            ("bob", "bob@example.org", "hunter2")] s_empty).
  split; constructor.
Defined.

Lemma find_by_username us u :
  NoDup (map User.username us) -> In u us ->
  find (fun r => String.eqb (User.username r) (User.username u)) us = Some u.
Proof.
  induction us as [|x us IH]; simpl; intros Hnd Hin; [contradiction|].
  inversion Hnd as [|y l Hnotin Hnd']; subst.
  destruct Hin as [->|Hin]; [now rewrite String.eqb_refl|].
  destruct (String.eqb (User.username x) (User.username u)) eqn:E; [|now apply IH].
  apply String.eqb_eq in E. exfalso. apply Hnotin. rewrite E. now apply in_map.
Qed.

(** X25.  A failed login does not tell why: an unknown user name and a
    wrong password for a known account end the same way under the same
    storage behaviour, and with the storage layer not failing both are
    HTTP 401 "Incorrect username or password". *)
Theorem login_failures_look_alike (sec : Security) (s s' : Service)
    (username password password' : string) (u : User.row) :
  (forall r, In r (users s) -> User.username r <> username) ->
  accounts_distinct (users s') -> In u (users s') ->
  verify_password sec password' (User.hashed_password u) = false ->
  faults (world s') = faults (world s) ->
  fst (login sec username password s) = fst (login sec (User.username u) password' s') /\
  (faults (world s) = [] ->
   fst (login sec username password s)
     = Raise (HTTPException 401 "Incorrect username or password")).
Proof.
  intros Hunknown [Hnd _] Hin Hv F.
  assert (H1 : find (fun r => String.eqb (User.username r) username) (users s) = None).
  { destruct (find _ (users s)) as [r|] eqn:E; [|reflexivity].
    apply find_some in E. destruct E as [Hr Hp]. apply String.eqb_eq in Hp.
    exfalso. exact (Hunknown r Hr Hp). }
  pose proof (find_by_username (users s') u Hnd Hin) as H2.
  unfold login, query_first_user, in_world, db_io, sbind, sraise, sret. rewrite F.
  destruct (faults (world s)) as [|[msg|] fs]; simpl; rewrite ?H1, ?H2, ?Hv; simpl;
    split; try reflexivity; intros; try reflexivity; discriminate.
Qed.

Lemma login_failures_look_alike_witness :
  fst (login example_security "zed" "secret" s_empty)
  = fst (login example_security "ann" "guess"
           (snd (register example_security "ann" "ann@example.org" "secret" s_empty))).
Proof.
  refine (proj1 (login_failures_look_alike example_security s_empty
           (snd (register example_security "ann" "ann@example.org" "secret" s_empty))
           "zed" "secret" "guess"
           {| User.email := "ann@example.org"; User.username := "ann";
              User.hashed_password := "hashed:secret";
              User.is_active := true; User.is_superuser := false |} _ _ _ _ _)).
  - intros r [].
  - split; simpl; (constructor; [intros []|constructor]).
  - left. reflexivity.
  - reflexivity.
  - reflexivity.
Defined.

(** X26.  A token is only issued after the password has been verified:
    when [login] returns, an account with that user name exists and
    [verify_password] accepts the password against its stored hash, the
    token is the one [create_access_token] makes for that user name, of type
    "bearer".  And [login] only reads: no account, history row or job row
    changes, whether it returns or raises. *)
Theorem login_verifies_before_issuing (sec : Security) (username password : string)
    (s : Service) :
  let s' := snd (login sec username password s) in
  users s' = users s /\ sentiment_requests s' = sentiment_requests s /\
  background_tasks (world s') = background_tasks (world s) /\
  forall token,
    fst (login sec username password s) = Return token ->
    token = {| access_token := create_access_token sec [("sub", username)];
               token_type := "bearer" |} /\
    exists u, In u (users s) /\ User.username u = username /\
              verify_password sec password (User.hashed_password u) = true.
Proof.
  unfold login, query_first_user, sbind, sraise, sret.
  destruct (in_world_db_io s) as (U1 & R1 & B1 & _ & [E1|[msg1 E1]] & _);
    destruct (in_world db_io s) as [r1 s1]; simpl in *; subst r1; simpl.
  - rewrite U1.
    destruct (find _ (users s)) as [u|] eqn:Hfind; simpl.
    + apply find_some in Hfind. destruct Hfind as [Hin Hp]. apply String.eqb_eq in Hp.
      destruct (verify_password sec password (User.hashed_password u)) eqn:Hv; simpl;
        (split; [assumption|]); (split; [assumption|]); (split; [assumption|]);
        intros tk Htk; [|discriminate Htk].
      split; [inversion Htk; now rewrite Hp|]. exists u. auto.
    + (split; [assumption|]); (split; [assumption|]); (split; [assumption|]).
      intros tk Htk. discriminate Htk.
  - (split; [assumption|]); (split; [assumption|]); (split; [assumption|]).
    intros tk Htk. discriminate Htk.
Qed.

Lemma login_verifies_before_issuing_witness :
  exists u,
    In u (users (snd (register example_security "ann" "ann@example.org" "secret" s_empty))) /\
    User.username u = "ann" /\
    verify_password example_security "secret" (User.hashed_password u) = true.
Proof.
  destruct (login_verifies_before_issuing example_security "ann" "secret"
              (snd (register example_security "ann" "ann@example.org" "secret" s_empty)))
    as (_ & _ & _ & H).
  apply (H {| access_token := "token:ann"; token_type := "bearer" |}).
  reflexivity.
Defined.


(** X27.  Registering and then logging in works: for a free user name and
    e-mail address (storage not failing), [register] stores one account,
    active, not a superuser, holding the hash of the password and not the
    password handed in; and provided [verify_password] accepts a password
    against its own hash, [login] with the same user name and password then
    returns the bearer token of that user. *)
Theorem register_then_login (sec : Security) (username email password : string)
    (s : Service) :
  (forall password, verify_password sec password (get_password_hash sec password) = true) ->
  faults (world s) = [] ->
  (forall r, In r (users s) -> User.username r <> username /\ User.email r <> email) ->
  let u := {| User.email := email; User.username := username;
              User.hashed_password := get_password_hash sec password;
              User.is_active := true; User.is_superuser := false |} in
  register sec username email password s = (Return u, set_users (users s ++ [u]) s) /\
  login sec username password (set_users (users s ++ [u]) s) =
    (Return {| access_token := create_access_token sec [("sub", username)];
               token_type := "bearer" |},
     set_users (users s ++ [u]) s).
Proof.
  intros Hverify F Hfree u.
  assert (Hnone : forall (p : User.row -> bool),
            (forall r, p r = true -> User.username r = username \/ User.email r = email) ->
            find p (users s) = None).
  { intros p Hp. destruct (find p (users s)) as [r|] eqn:E; [|reflexivity].
    apply find_some in E. destruct E as [Hin Hr].
    destruct (Hfree r Hin) as [N1 N2]. destruct (Hp r Hr); contradiction. }
  split.
  - unfold register, query_first_user, commit_add_user, sbind, sret, sraise.
    destruct (in_world_db_io s) as (_ & _ & _ & _ & _ & Hio). rewrite (Hio F).
    rewrite Hnone.
    + rewrite (Hio F).
      rewrite (find_none_existsb_false _ (users s)).
      * destruct (in_world_db_io (set_users (users s ++ [u]) s)) as (_ & _ & _ & _ & _ & Hio').
        fold u. rewrite (Hio' F). reflexivity.
      * apply Hnone. intros r Hr. apply orb_true_iff in Hr.
        destruct Hr as [Hr|Hr]; apply String.eqb_eq in Hr; simpl in Hr; auto.
    + intros r Hr. apply orb_true_iff in Hr.
      destruct Hr as [Hr|Hr]; apply String.eqb_eq in Hr; auto.
  - unfold login, query_first_user, sbind, sret, sraise.
    destruct (in_world_db_io (set_users (users s ++ [u]) s)) as (_ & _ & _ & _ & _ & Hio').
    rewrite (Hio' F). simpl. rewrite find_app_cases, Hnone.
    + simpl. rewrite String.eqb_refl. simpl. rewrite Hverify. reflexivity.
    + intros r Hr. apply String.eqb_eq in Hr. auto.
Qed.

Lemma register_then_login_witness :
  login example_security "ann" "secret"
    (set_users [{| User.email := "ann@example.org"; User.username := "ann";
                   User.hashed_password := "hashed:secret";
                   User.is_active := true; User.is_superuser := false |}] s_empty)
  = (Return {| access_token := "token:ann"; token_type := "bearer" |},
     set_users [{| User.email := "ann@example.org"; User.username := "ann";
                   User.hashed_password := "hashed:secret";
                   User.is_active := true; User.is_superuser := false |}] s_empty).
Proof.
  apply (register_then_login example_security "ann" "ann@example.org" "secret" s_empty).
  - intros password. simpl. apply String.eqb_refl.
  - reflexivity.
  - intros r [].
Defined.
